(** * SHANGRLA [Code/Audit.py]: assertions, assorters and contests

    A shallow embedding of the classes [Assorter], [Assertion] and [Contest]
    of [Code/Audit.py], and the properties of the audit engine stated over it.

    Conventions of the embedding.
    - Python floats are rationals ([Q]); the two special values the source
      itself can produce, [np.infty] and the [nan] that [np.mean] returns on an
      empty list, are carried by [pyfloat] where they can flow (margins).
      Arithmetic on [Q] is exact where binary64 rounds to nearest.  The
      statements are kept to what rounding preserves: inequalities that are
      not strict, against bounds that binary64 represents; values that are
      exact in binary64 (0, 1/2, 1); and equalities between results of the
      same operations.  None relies on the sum of floats being associative.
    - A warning is recorded by its category.  The warnings of [np.mean] on
      an empty list are recorded where the source calls it ([find_margin]).
    - A Python call either returns or raises: [result A].  Operations that
      mutate their arguments return the mutated object next to the outcome,
      also when they raise, since the mutation done so far stays visible.
    - A [dict] is an association list in insertion order with unique keys.
    - The classes [CVR] and [NonnegMean] are imported by the source and are
      taken through the interface the source uses. *)

From Stdlib Require Import QArith Qround List String Bool ZArith Lia Lqa.
Import ListNotations.

Set Implicit Arguments.

(* ================================================================== *)
(** * Python runtime: exceptions, floats, dicts *)

Module Py.

Inductive exn : Set :=
| TypeError | ValueError | NameError | AttributeError | AssertionError
| NotImplementedError | ZeroDivisionError | IndexError | KeyError.

Inductive result (A : Type) : Type :=
| Ok (a : A)
| Raise (e : exn).
Arguments Ok {A} a.
Arguments Raise {A} e.

Definition bind {A B} (r : result A) (k : A -> result B) : result B :=
  match r with
  | Ok a => k a
  | Raise e => Raise e
  end.

Definition returns {A} (r : result A) : bool :=
  match r with Ok _ => true | Raise _ => false end.

(** [assert cond] *)
Definition assert (cond : bool) : result unit :=
  if cond then Ok tt else Raise AssertionError.

(** ** Floats *)

Definition Qlt_bool (x y : Q) : bool := negb (Qle_bool y x).

Inductive pyfloat : Set :=
| Fin (q : Q)
| PInf
| NInf
| NaN.

(** [q * inf] for a finite [q] *)
Definition scale_inf (q : Q) : pyfloat :=
  if Qlt_bool 0 q then PInf else if Qlt_bool q 0 then NInf else NaN.

Definition opp (x : pyfloat) : pyfloat :=
  match x with
  | Fin q => Fin (- q)
  | PInf => NInf
  | NInf => PInf
  | NaN => NaN
  end.

Definition add (x y : pyfloat) : pyfloat :=
  match x, y with
  | NaN, _ | _, NaN => NaN
  | Fin a, Fin b => Fin (a + b)
  | PInf, NInf | NInf, PInf => NaN
  | PInf, _ | _, PInf => PInf
  | NInf, _ | _, NInf => NInf
  end.

Definition sub (x y : pyfloat) : pyfloat := add x (opp y).

Definition mul (x y : pyfloat) : pyfloat :=
  match x, y with
  | NaN, _ | _, NaN => NaN
  | Fin a, Fin b => Fin (a * b)
  | Fin a, PInf | PInf, Fin a => scale_inf a
  | Fin a, NInf | NInf, Fin a => scale_inf (- a)
  | PInf, PInf | NInf, NInf => PInf
  | PInf, NInf | NInf, PInf => NInf
  end.

(** [x / y] on Python floats: a zero divisor raises, whatever [x] is. *)
Definition div (x y : pyfloat) : result pyfloat :=
  match y with
  | Fin b =>
      if Qeq_bool b 0 then Raise ZeroDivisionError
      else Ok match x with
              | Fin a => Fin (a / b)
              | PInf => scale_inf b
              | NInf => scale_inf (- b)
              | NaN => NaN
              end
  | PInf | NInf => Ok match x with Fin _ => Fin 0 | _ => NaN end
  | NaN => Ok NaN
  end.

(** [x < y]; every comparison with [nan] is false. *)
Definition ltb (x y : pyfloat) : bool :=
  match x, y with
  | NaN, _ | _, NaN => false
  | Fin a, Fin b => Qlt_bool a b
  | _, NInf => false
  | NInf, _ => true
  | PInf, _ => false
  | _, PInf => true
  end.

(** [min(a, b)] of two arguments: [b] when [b < a], else [a]. *)
Definition min (a b : pyfloat) : pyfloat := if ltb b a then b else a.

(** Truth value of a float: zero is false, everything else (also [nan])
    is true. *)
Definition truthy (x : pyfloat) : bool :=
  match x with Fin q => negb (Qeq_bool q 0) | _ => true end.

(** [q / d] on two finite floats *)
Definition qdiv (q d : Q) : result Q :=
  if Qeq_bool d 0 then Raise ZeroDivisionError else Ok (q / d).

(** ** Lists of numbers *)

Definition sum (l : list Q) : Q := fold_right Qplus 0 l.

(** [np.mean]: [nan] on an empty list. *)
Definition np_mean (l : list Q) : pyfloat :=
  match l with
  | [] => NaN
  | _ => Fin (sum l / inject_Z (Z.of_nat (List.length l)))
  end.

(** ** Warnings *)

(** The category of a warning: [warnings.warn(message)] issues a
    [UserWarning]; numpy issues [RuntimeWarning]s. *)
Inductive warning : Set := UserWarning | RuntimeWarning.

(** The warnings of [np.mean(l)]: on an empty list it issues a
    [RuntimeWarning] (mean of an empty slice) and, for the division of the
    sum 0 by the count 0, a second one (invalid value), before it returns
    [nan]. *)
Definition np_mean_warnings (l : list Q) : list warning :=
  match l with
  | [] => [RuntimeWarning; RuntimeWarning]
  | _ => []
  end.

(** [np.max([a, b])] on finite floats *)
Definition np_max (a b : Q) : Q := if Qle_bool a b then b else a.

(** ** Dicts *)

Definition dict (V : Type) : Type := list (string * V).

Fixpoint get {V} (d : dict V) (k : string) : option V :=
  match d with
  | [] => None
  | (k', v) :: d' => if String.eqb k k' then Some v else get d' k
  end.

(** [d[k] = v], [d.update({k: v})] *)
Fixpoint update {V} (d : dict V) (k : string) (v : V) : dict V :=
  match d with
  | [] => [(k, v)]
  | (k', v') :: d' =>
      if String.eqb k k' then (k', v) :: d' else (k', v') :: update d' k v
  end.

Definition keys {V} (d : dict V) : list string := map fst d.

End Py.

Import Py.

Notation "x <- e ;; k" := (Py.bind e (fun x => k))
(at level 61, e at next level, right associativity).

(* ================================================================== *)
(** * Imported collaborators *)

(** The part of class [CVR] (module [CVR], imported by the source) that the
    methods below use: [c.has_contest(contest_id)], the flag [c.phantom],
    [c.get_vote_for(contest_id, candidate)],
    [c.rcv_lfunc_wo(contest_id, winner, loser)] and
    [c.rcv_votefor_cand(contest, candidate, remaining)] (the contest is given
    by its identifier here). *)
Class BallotRecord (CVR : Type) : Type := {
  has_contest : CVR -> string -> bool;
  phantom : CVR -> bool;
  get_vote_for : CVR -> string -> string -> Q;
  rcv_lfunc_wo : CVR -> string -> string -> string -> Q;
  rcv_votefor_cand : CVR -> string -> string -> list string -> Q
}.

(** An instance of [NonnegMean] (imported by the source), through the two
    methods the source calls: [test(d)] returns the pair
    [(p_value, p_history)]; [sample_size(x, alpha, reps, prefix, quantile,
    seed)] returns a sample size.  [constructor] is the type of the
    constructor as the source calls it, [NonnegMean(test=, estim=, g=, u=,
    N=, t=1/2, random_order=True)], with the risk function and the estimator
    given by name. *)
Module NonnegMean.
Record t : Type := mk {
  test : list pyfloat -> Q * list Q;
  sample_size : list pyfloat -> Q -> option nat -> bool -> Q -> Z -> Z
}.
Definition constructor : Type :=
  option string -> option string -> option Q -> Q -> Z -> t.
End NonnegMean.

(* ================================================================== *)
(** * class Audit: the string constants *)

Module Audit.
Open Scope string_scope.
Definition PLURALITY : string := "PLURALITY".
Definition SUPERMAJORITY : string := "SUPERMAJORITY".
Definition IRV : string := "IRV".
Definition POLLING : string := "POLLING".
Definition BALLOT_COMPARISON : string := "BALLOT_COMPARISON".
End Audit.

(* ================================================================== *)
(** * class Assorter *)

Module Assorter.
Section Assorter.
Context {CVR : Type}.

(** An argument that is meant to be a function of a ballot record:
    [None], a function, or some other object ([callable] is false). *)
Inductive scorer : Type :=
| PyNone
| Callable (f : CVR -> Q)
| NotCallable.

Definition callable (s : scorer) : bool :=
  match s with Callable _ => true | _ => false end.

Record t : Type := mk {
  contest_id : option string;
  winner : scorer;
  loser : scorer;
  upper_bound : Q;
  assort : CVR -> Q
}.

(** [Assorter.__init__(self, contest_id, assort, winner, loser,
    upper_bound)] *)
Definition init (contest_id : option string) (assort winner loser : scorer)
           (upper_bound : Q) : result t :=
  match assort with
  | Callable f => Ok (mk contest_id winner loser upper_bound f)
  | NotCallable => Raise AssertionError
  | PyNone =>
      match winner with
      | Callable w =>
          match loser with
          | Callable l =>
              Ok (mk contest_id winner loser upper_bound
                     (fun cvr => (w cvr - l cvr + 1) / 2))
          | _ => Raise AssertionError
          end
      | _ => Raise AssertionError
      end
  end.

End Assorter.
Arguments scorer : clear implicits.
Arguments t : clear implicits.
End Assorter.

(* ================================================================== *)
(** * class Assertion: the instance and its methods *)

(** What the methods of an assertion read through [self.contest]: the
    attributes [id], [risk_limit] and [audit_type] of the contest.  No
    operation of the source writes them, so the reference to the contest is
    represented by their values. *)
Module ContestRef.
Record t : Type := mk {
  id : string;
  risk_limit : Q;
  audit_type : string
}.
End ContestRef.

Module Assertion.
Section Assertion.
Context {CVR : Type} `{BallotRecord CVR}.

(** The attributes [Assertion.__init__] creates.  The attribute
    [sample_size] is [sample_size_attr] here; [sample_size] below is the
    method of the class. *)
Record t : Type := mk {
  contest : ContestRef.t;
  assorter : Assorter.t CVR;
  margin : option pyfloat;
  test : NonnegMean.t;
  p_value : Q;
  p_history : list Q;
  proved : bool;
  sample_size_attr : option Z
}.

(** [Assertion(contest, assorter, test=test)] with the defaults of the
    other arguments *)
Definition init (contest : ContestRef.t) (assorter : Assorter.t CVR)
           (test : NonnegMean.t) : t :=
  mk contest assorter None test 1 [] false None.

Definition set_margin (self : t) (m : option pyfloat) : t :=
  mk (contest self) (assorter self) m (test self) (p_value self)
     (p_history self) (proved self) (sample_size_attr self).

Definition set_p (self : t) (p : Q) (h : list Q) : t :=
  mk (contest self) (assorter self) (margin self) (test self) p h
     (proved self) (sample_size_attr self).

Definition set_proved (self : t) (b : bool) : t :=
  mk (contest self) (assorter self) (margin self) (test self) (p_value self)
     (p_history self) b (sample_size_attr self).

Definition upper_bound (self : t) : Q := Assorter.upper_bound (assorter self).

(** [assort(self, cvr)] *)
Definition assort (self : t) (cvr : CVR) : Q :=
  Assorter.assort (assorter self) cvr.

(** [assorter_mean(self, cvr_list, use_style)]; iterating over
    [cvr_list = None] raises. *)
Definition assorter_mean (self : t) (cvr_list : option (list CVR))
           (use_style : bool) : result pyfloat :=
  let filtr : CVR -> bool :=
    if use_style then fun c => has_contest c (ContestRef.id (contest self))
    else fun _ => true in
  match cvr_list with
  | None => Raise TypeError
  | Some l => Ok (np_mean (map (assort self) (filter filtr l)))
  end.

(** [assorter_margin(self, cvr_list, use_style)] *)
Definition assorter_margin (self : t) (cvr_list : option (list CVR))
           (use_style : bool) : result pyfloat :=
  m <- assorter_mean self cvr_list use_style ;;
  Ok (sub (mul (Fin 2) m) (Fin 1)).

(** [overstatement(self, mvr, cvr, use_style)] *)
Definition overstatement (self : t) (mvr cvr : CVR) (use_style : bool)
  : result Q :=
  if negb use_style then
    Ok (assort self cvr - (if negb (phantom mvr) then assort self mvr else 0))
  else
    if has_contest cvr (ContestRef.id (contest self)) then
      let cvr_assort := if phantom cvr then 1 # 2 else assort self cvr in
      let mvr_assort :=
        if phantom mvr || negb (has_contest mvr (ContestRef.id (contest self)))
        then 0 else assort self mvr in
      Ok (cvr_assort - mvr_assort)
    else Raise ValueError.

(** [self.margin] used as a number: [None] in arithmetic raises. *)
Definition margin_value (self : t) : result pyfloat :=
  match margin self with
  | Some m => Ok m
  | None => Raise TypeError
  end.

(** [(1 - o/u)/(2 - self.margin/u)] with [u] the assorter's upper bound, in
    Python's order of evaluation *)
Definition rescale (self : t) (o : Q) : result pyfloat :=
  a <- qdiv o (upper_bound self) ;;
  m <- margin_value self ;;
  b <- div m (Fin (upper_bound self)) ;;
  div (Fin (1 - a)) (sub (Fin 2) b).

(** [overstatement_assorter(self, mvr, cvr, use_style)] *)
Definition overstatement_assorter (self : t) (mvr cvr : CVR)
           (use_style : bool) : result pyfloat :=
  o <- overstatement self mvr cvr use_style ;;
  rescale self o.

(** A name that is bound neither in the function nor in the module: reading
    it raises. *)
Definition undefined_name {A} (name : string) : result A := Raise NameError.

(** An attribute that no [__init__] of the class creates: reading it
    raises. *)
Definition missing_attribute {A} (name : string) : result A :=
  Raise AttributeError.

(** The warnings that [np.mean] issues inside
    [assorter_mean(self, cvr_list, use_style)]: those of the mean of the
    scores of the cards that pass the filter. *)
Definition assorter_mean_warnings (self : t) (cvr_list : option (list CVR))
           (use_style : bool) : list warning :=
  let filtr : CVR -> bool :=
    if use_style then fun c => has_contest c (ContestRef.id (contest self))
    else fun _ => true in
  match cvr_list with
  | None => []
  | Some l => np_mean_warnings (map (assort self) (filter filtr l))
  end.

(** [find_margin(self, cvr_list, use_style)].  The outcome, the assertion
    afterwards and the warnings issued: those of [np.mean], then the one of
    line 327.  The message of that warning is an f-string that reads the
    name [a], which is not bound in [find_margin] nor anywhere in the
    module, so building the message raises. *)
Definition find_margin (self : t) (cvr_list : option (list CVR))
           (use_style : bool) : result unit * t * list warning :=
  match assorter_mean self cvr_list use_style with
  | Raise e => (Raise e, self, [])
  | Ok amean =>
      let issued := assorter_mean_warnings self cvr_list use_style in
      let warned : result (list warning) :=
        if ltb amean (Fin (1 # 2)) then
          a <- undefined_name (A:=string) "a" ;;
          Ok [UserWarning]
        else Ok [] in
      match warned with
      | Raise e => (Raise e, self, issued)
      | Ok w =>
          (Ok tt, set_margin self (Some (sub (mul (Fin 2) amean) (Fin 1))),
           (issued ++ w)%list)
      end
  end.

(** [make_overstatement(self, overs, cvr_list, use_style)].  When the margin
    is unset or zero the source calls [self.find_margin(cvrs, ...)], and
    [cvrs] is not a name of the function (its parameter is [cvr_list]). *)
Definition make_overstatement (self : t) (overs : Q) : result pyfloat :=
  let margin_set :=
    match margin self with Some m => truthy m | None => false end in
  _ <- (if negb margin_set then undefined_name "cvrs" else Ok tt) ;;
  rescale self overs.

(** [int(1/small_rate)] *)
Definition period (small_rate : pyfloat) : result Z :=
  r <- div (Fin 1) small_rate ;;
  match r with
  | Fin q => Ok (Qfloor q)
  | _ => Raise ValueError
  end.

(** The loop [for k in range(N): x[k] = small if (small_rate > 0 and
    k % int(1/small_rate) == 0) else x[k]] over [x = big*np.ones(N)],
    for the indices [ks] *)
Fixpoint interleave (big small : pyfloat) (small_rate : option pyfloat)
         (ks : list nat) : result (list pyfloat) :=
  match ks with
  | [] => Ok []
  | k :: ks' =>
      r <- match small_rate with
           | Some r => Ok r
           | None => Raise TypeError
           end ;;
      xk <- (if ltb (Fin 0) r then
               n <- period r ;;
               if (n =? 0)%Z then Raise ZeroDivisionError
               else Ok (if (Z.of_nat k mod n =? 0)%Z then small else big)
             else Ok big) ;;
      rest <- interleave big small small_rate ks' ;;
      Ok (xk :: rest)
  end.

(** [sample_size(self, data, prefix, rate, reps, quantile, seed)].
    [__init__] creates no attribute [u] or [N], and the function assigns its
    estimate to [sample_size] but stores and returns [sam_size]. *)
Definition sample_size (self : t) (data : option (list pyfloat))
           (prefix : bool) (rate : option pyfloat) (reps : option nat)
           (quantile : Q) (seed : Z) : result Z :=
  let alpha := ContestRef.risk_limit (contest self) in
  let polling :=
    String.eqb (ContestRef.audit_type (contest self)) Audit.POLLING in
  let comparison :=
    String.eqb (ContestRef.audit_type (contest self)) Audit.BALLOT_COMPARISON in
  m <- margin_value self ;;
  _ <- assert (ltb (Fin 0) m) ;;
  estimate <-
    match data with
    | Some (v :: d) =>
        Ok (NonnegMean.sample_size (test self) (v :: d) alpha reps prefix
              quantile seed)
    | _ =>
        big <- (if polling then missing_attribute "u"
                else make_overstatement self 0) ;;
        small <- (if polling then Ok (Fin 0) else make_overstatement self 1) ;;
        small_rate <-
          (if comparison then Ok rate
           else match rate with
                | Some r => Ok (Some r)
                | None => r <- div (sub (Fin 1) m) (Fin 2) ;; Ok (Some r)
                end) ;;
        N <- missing_attribute "N" ;;
        x <- interleave big small small_rate (seq 0 N) ;;
        Ok (NonnegMean.sample_size (test self) x alpha reps prefix
              quantile seed)
    end ;;
  sam_size <- undefined_name "sam_size" ;;
  Ok sam_size.

(** [min(l)] on a list of floats: the first smallest element; an empty
    list raises. *)
Definition min_list (l : list Q) : result Q :=
  match l with
  | [] => Raise ValueError
  | x :: l' => Ok (fold_left (fun acc y => if Qlt_bool y acc then y else acc) l' x)
  end.

(** [min_p(self)] *)
Definition min_p (self : t) : result Q := min_list (p_history self).

(** [assorter_sum(self, cvr_list, use_style)]; [np.sum] of an empty list
    is 0. *)
Definition assorter_sum (self : t) (cvr_list : option (list CVR))
           (use_style : bool) : result Q :=
  let filtr : CVR -> bool :=
    if use_style then fun c => has_contest c (ContestRef.id (contest self))
    else fun _ => true in
  match cvr_list with
  | None => Raise TypeError
  | Some l => Ok (sum (map (assort self) (filter filtr l)))
  end.

(** The first lines of [overstatement_assorter_margin] and of
    [overstatement_assorter_mean]: the margin given, or the one of a
    non-empty [cvr_list] (with the default [use_style=True]). *)
Definition margin_or_cvrs (self : t) (assorter_margin : option pyfloat)
           (cvr_list : option (list CVR)) : result pyfloat :=
  match assorter_margin with
  | Some m => Ok m
  | None =>
      match cvr_list with
      | Some (c :: l) => Assertion.assorter_margin self (Some (c :: l)) true
      | _ => Raise ValueError
      end
  end.

(** [overstatement_assorter_margin(self, assorter_margin,
    one_vote_overstatement_rate, cvr_list)]: the returned expression is
    [(1-r*u/assorter_margin)/(2*u/assorter_margin-1)], and [r] is not a name
    of the function (its parameter is [one_vote_overstatement_rate]). *)
Definition overstatement_assorter_margin (self : t)
           (assorter_margin : option pyfloat)
           (one_vote_overstatement_rate : pyfloat)
           (cvr_list : option (list CVR)) : result pyfloat :=
  m <- margin_or_cvrs self assorter_margin cvr_list ;;
  let u := Fin (upper_bound self) in
  r <- undefined_name "r" ;;
  a <- div (mul r u) m ;;
  b <- div (mul (Fin 2) u) m ;;
  div (sub (Fin 1) a) (sub b (Fin 1)).

(** [overstatement_assorter_mean(self, assorter_margin,
    one_vote_overstatement_rate, cvr_list)]: the returned expression is
    [(1-r/2)/(2-assorter_margin/self.assorter.upper_bound)]. *)
Definition overstatement_assorter_mean (self : t)
           (assorter_margin : option pyfloat)
           (one_vote_overstatement_rate : pyfloat)
           (cvr_list : option (list CVR)) : result pyfloat :=
  m <- margin_or_cvrs self assorter_margin cvr_list ;;
  r <- undefined_name "r" ;;
  a <- div r (Fin 2) ;;
  b <- div m (Fin (upper_bound self)) ;;
  div (sub (Fin 1) a) (sub (Fin 2) b).

End Assertion.
Arguments t : clear implicits.
End Assertion.

(* ================================================================== *)
(** * class Contest *)

(** A RAIRE-style assertion record of [assertion_json]; the key
    [already_eliminated] may be absent. *)
Module Json.
Record assertion : Type := mk {
  winner : string;
  loser : string;
  assertion_type : string;
  already_eliminated : option (list string)
}.
End Json.

Module Contest.
Section Contest.
Context {CVR : Type}.

(** The attributes [Contest.__init__] creates (its parameter list lacks the
    comma after [g: float=0.1]; the parameters are read as [ATTRIBUTES] and
    the body list them), then the attributes that the batch operations add
    to a contest ([margins], [p_values], [proved], [max_p]) and the attribute
    [assertion_json] that [make_all_assertions] assumes; [None] where the
    attribute is [None] or not set. *)
Record t : Type := mk {
  id : string;
  name : option string;
  risk_limit : Q;
  cards : Z;
  choice_function : string;
  n_winners : Z;
  share_to_win : option Q;
  candidates : option (list string);
  reported_winners : option (list string);
  assertion_file : option string;
  audit_type : string;
  test : option string;
  g : option Q;
  estim : option string;
  use_style : bool;
  assertions : option (dict (Assertion.t CVR));
  sample_size : option Z;
  margins : option (dict (option pyfloat));
  p_values : option (dict Q);
  proved : option (dict Z);
  max_p : option Q;
  assertion_json : option (list Json.assertion)
}.

Definition ref (c : t) : ContestRef.t :=
  ContestRef.mk (id c) (risk_limit c) (audit_type c).

Definition set_assertions (c : t) (a : option (dict (Assertion.t CVR))) : t :=
  mk (id c) (name c) (risk_limit c) (cards c) (choice_function c)
     (n_winners c) (share_to_win c) (candidates c) (reported_winners c)
     (assertion_file c) (audit_type c) (test c) (g c) (estim c) (use_style c)
     a (sample_size c) (margins c) (p_values c) (proved c) (max_p c)
     (assertion_json c).

Definition set_margins (c : t) (m : option (dict (option pyfloat))) : t :=
  mk (id c) (name c) (risk_limit c) (cards c) (choice_function c)
     (n_winners c) (share_to_win c) (candidates c) (reported_winners c)
     (assertion_file c) (audit_type c) (test c) (g c) (estim c) (use_style c)
     (assertions c) (sample_size c) m (p_values c) (proved c) (max_p c)
     (assertion_json c).

Definition set_p_values (c : t) (p : option (dict Q)) : t :=
  mk (id c) (name c) (risk_limit c) (cards c) (choice_function c)
     (n_winners c) (share_to_win c) (candidates c) (reported_winners c)
     (assertion_file c) (audit_type c) (test c) (g c) (estim c) (use_style c)
     (assertions c) (sample_size c) (margins c) p (proved c) (max_p c)
     (assertion_json c).

Definition set_proved (c : t) (p : option (dict Z)) : t :=
  mk (id c) (name c) (risk_limit c) (cards c) (choice_function c)
     (n_winners c) (share_to_win c) (candidates c) (reported_winners c)
     (assertion_file c) (audit_type c) (test c) (g c) (estim c) (use_style c)
     (assertions c) (sample_size c) (margins c) (p_values c) p (max_p c)
     (assertion_json c).

Definition set_max_p (c : t) (p : option Q) : t :=
  mk (id c) (name c) (risk_limit c) (cards c) (choice_function c)
     (n_winners c) (share_to_win c) (candidates c) (reported_winners c)
     (assertion_file c) (audit_type c) (test c) (g c) (estim c) (use_style c)
     (assertions c) (sample_size c) (margins c) (p_values c) (proved c) p
     (assertion_json c).

End Contest.
Arguments t : clear implicits.
End Contest.

(* ================================================================== *)
(** * class Assertion: the class methods over contests *)

Section ClassMethods.
Context {CVR : Type} `{BallotRecord CVR}.
Variable new_NonnegMean : NonnegMean.constructor.

Local Abbreviation Assertion := (Assertion.t CVR).
Local Abbreviation Contest := (Contest.t CVR).
Local Open Scope string_scope.

Definition WINNER_ONLY : string := "WINNER_ONLY".
Definition IRV_ELIMINATION : string := "IRV_ELIMINATION".

(** [for x in l] when [l] may be [None] *)
Definition py_iter {A} (l : option (list A)) : result (list A) :=
  match l with
  | Some l => Ok l
  | None => Raise TypeError
  end.

(** [x in l], [l[0]] *)
Definition contains (x : string) (l : list string) : bool :=
  existsb (String.eqb x) l.

Definition first {A} (l : option (list A)) : result A :=
  match l with
  | None => Raise TypeError
  | Some [] => Raise IndexError
  | Some (x :: _) => Ok x
  end.

(** A call that passes a keyword argument the callee has no parameter for,
    or binds one parameter twice, raises before the body of the callee
    runs. *)
Definition bad_call {A} : result A := Raise TypeError.

(** ** make_plurality_assertions *)

(** The body of the inner loop.  [Assorter.__init__] has the parameters
    [contest_id, assort, winner, loser, upper_bound]: the call
    [Assorter(contest=contest, assort=..., upper_bound=1)] names a parameter
    that does not exist.  (The source passes [contest.id] where the class
    expects the contest.) *)
Definition plurality_pair (contest : Contest) (winr losr : string)
  : result (string * Assertion) :=
  let wl_pair := winr ++ " v " ++ losr in
  let _test := new_NonnegMean (Contest.test contest) (Contest.estim contest)
                 (Contest.g contest) 1 (Contest.cards contest) in
  assorter <- bad_call ;;
  Ok (wl_pair, Assertion.init (Contest.ref contest) assorter _test).

Fixpoint plurality_losers (contest : Contest) (winr : string)
         (losers : list string) (assertions : dict Assertion)
  : result (dict Assertion) :=
  match losers with
  | [] => Ok assertions
  | losr :: rest =>
      kv <- plurality_pair contest winr losr ;;
      plurality_losers contest winr rest (update assertions (fst kv) (snd kv))
  end.

Fixpoint plurality_winners (contest : Contest) (winners : list string)
         (losers : option (list string)) (assertions : dict Assertion)
  : result (dict Assertion) :=
  match winners with
  | [] => Ok assertions
  | winr :: rest =>
      ls <- py_iter losers ;;
      assertions' <- plurality_losers contest winr ls assertions ;;
      plurality_winners contest rest losers assertions'
  end.

(** [make_plurality_assertions(cls, contest, winners, losers)] *)
Definition make_plurality_assertions (contest : Contest)
           (winners losers : option (list string)) : result (dict Assertion) :=
  ws <- py_iter winners ;;
  plurality_winners contest ws losers [].

(** ** make_assertions_from_json *)

(** The argument [contest]: a Contest, or the key of one in the dict of
    contests (a string, which has no attribute [id] or [cards]). *)
Inductive contest_arg : Type :=
| Obj (c : Contest)
| Key (k : string).

Definition attr {A} (f : Contest -> A) (c : contest_arg) : result A :=
  match c with
  | Obj c => Ok (f c)
  | Key _ => Raise AttributeError
  end.

(** The body of the loop: the label and the assertion built for one
    record. *)
Definition json_assertion (contest : contest_arg)
           (candidates : option (list string)) (assrtn : Json.assertion)
           (test estim : option string) : result (string * Assertion) :=
  let winr := Json.winner assrtn in
  let losr := Json.loser assrtn in
  if String.eqb (Json.assertion_type assrtn) WINNER_ONLY then
    contest_id <- attr Contest.id contest ;;
    let winner_func := fun v : CVR =>
      if Qeq_bool (get_vote_for v contest_id winr) 1 then 1%Q else 0%Q in
    let loser_func := fun v : CVR => rcv_lfunc_wo v contest_id winr losr in
    let wl_pair := winr ++ " v " ++ losr in
    cards <- attr Contest.cards contest ;;
    let _test := new_NonnegMean test estim None 1 cards in
    c <- attr Contest.ref contest ;;
    assorter <- Assorter.init (Some contest_id) Assorter.PyNone
                  (Assorter.Callable winner_func)
                  (Assorter.Callable loser_func) 1 ;;
    Ok (wl_pair, Assertion.init c assorter _test)
  else if String.eqb (Json.assertion_type assrtn) IRV_ELIMINATION then
    elim <- match Json.already_eliminated assrtn with
            | Some e => Ok e
            | None => Raise KeyError
            end ;;
    cands <- py_iter candidates ;;
    let remn := filter (fun c => negb (contains c elim)) cands in
    let wl_given := winr ++ " v " ++ losr ++ " elim " ++ String.concat " " elim in
    cards <- attr Contest.cards contest ;;
    let _test := new_NonnegMean test estim None 1 cards in
    c <- attr Contest.ref contest ;;
    contest_id <- attr Contest.id contest ;;
    assorter <- Assorter.init (Some contest_id)
                  (Assorter.Callable (fun v : CVR =>
                     (rcv_votefor_cand v contest_id winr remn
                      - rcv_votefor_cand v contest_id losr remn + 1) / 2)%Q)
                  Assorter.PyNone Assorter.PyNone 1 ;;
    Ok (wl_given, Assertion.init c assorter _test)
  else
    (* raise NotImplemented(f'... {assertn[...]} ...'): the name is
       [assrtn] *)
    Assertion.undefined_name "assertn".

Fixpoint json_assertions_loop (contest : contest_arg)
         (candidates : option (list string)) (l : list Json.assertion)
         (test estim : option string) (assertions : dict Assertion)
  : result (dict Assertion) :=
  match l with
  | [] => Ok assertions
  | assrtn :: rest =>
      kv <- json_assertion contest candidates assrtn test estim ;;
      json_assertions_loop contest candidates rest test estim
        (update assertions (fst kv) (snd kv))
  end.

(** [make_assertions_from_json(cls, contest, candidates, json_assertions,
    test, estim)] *)
Definition make_assertions_from_json (contest : contest_arg)
           (candidates : option (list string))
           (json_assertions : option (list Json.assertion))
           (test estim : option string) : result (dict Assertion) :=
  l <- py_iter json_assertions ;;
  json_assertions_loop contest candidates l test estim [].

(** ** make_all_assertions *)

(** [[cand for cand in candidates if cand not in winrs]] *)
Definition not_winners (candidates winrs : option (list string))
  : result (list string) :=
  cands <- py_iter candidates ;;
  match cands, winrs with
  | [], _ => Ok []
  | _ :: _, None => Raise TypeError
  | _ :: _, Some ws => Ok (filter (fun cand => negb (contains cand ws)) cands)
  end.

(** The body of the loop of [make_all_assertions] for the contest of key
    [c]: the dict assigned to [contests[c].assertions].
    - PLURALITY: the call passes [test=] and [estim=], and
      [make_plurality_assertions] has the parameters [contest, winners,
      losers] only.
    - SUPERMAJORITY: the call passes [winners=] and [share_to_win=], and
      [make_supermajority_assertion] has the parameters [contest, winner,
      losers, test, estim].
    - IRV: the call matches the parameters of [make_assertions_from_json];
      it passes the key [c] as the contest and reads the attribute
      [assertion_json]. *)
Definition contest_assertions (c : string) (con : Contest)
  : result (dict Assertion) :=
  let scf := Contest.choice_function con in
  let winrs := Contest.reported_winners con in
  losrs <- not_winners (Contest.candidates con) winrs ;;
  let test := Contest.test con in
  let estim := Contest.estim con in
  if String.eqb scf Audit.PLURALITY then
    bad_call
  else if String.eqb scf Audit.SUPERMAJORITY then
    _ <- first winrs ;;
    bad_call
  else if String.eqb scf Audit.IRV then
    json <- match Contest.assertion_json con with
            | Some j => Ok (Some j)
            | None => Assertion.missing_attribute "assertion_json"
            end ;;
    make_assertions_from_json (Key c) (Contest.candidates con) json test estim
  else Raise NotImplementedError.

(** [make_all_assertions(cls, contests)]: the outcome and the dict of
    contests afterwards. *)
Fixpoint make_all_assertions (contests : dict Contest)
  : result bool * dict Contest :=
  match contests with
  | [] => (Ok true, [])
  | (c, con) :: rest =>
      match contest_assertions c con with
      | Raise e => (Raise e, (c, con) :: rest)
      | Ok a =>
          let (r, rest') := make_all_assertions rest in
          (r, (c, Contest.set_assertions con (Some a)) :: rest')
      end
  end.

(** ** make_supermajority_assertion *)

(** [make_supermajority_assertion(cls, contest, winner, losers, test,
    estim)].  [losers.copy()] on [None] raises; the bound of the test is
    [1/(2*contest.share_to_win)]; and, as in [plurality_pair], the call
    [Assorter(contest=contest, assort=..., upper_bound=...)] names a
    parameter that [Assorter.__init__] does not have. *)
Definition make_supermajority_assertion (contest : Contest) (winner : string)
           (losers : option (list string)) (test estim : option string)
  : result (dict Assertion) :=
  let assertions : dict Assertion := [] in
  let wl_pair := winner ++ " v all" in
  cands <- match losers with
           | Some l => Ok (l ++ [winner])%list
           | None => Raise AttributeError
           end ;;
  share <- match Contest.share_to_win contest with
           | Some s => Ok s
           | None => Raise TypeError
           end ;;
  u <- qdiv 1 (2 * share) ;;
  let _test := new_NonnegMean test estim None u (Contest.cards contest) in
  assorter <- bad_call ;;
  Ok (update assertions wl_pair
        (Assertion.init (Contest.ref contest) assorter _test)).

End ClassMethods.

Section BatchOperations.
Context {CVR : Type} `{BallotRecord CVR}.

Local Abbreviation Assertion := (Assertion.t CVR).
Local Abbreviation Contest := (Contest.t CVR).

(** ** set_all_margins *)

(** [min(min_margin, margin)]: ordering [None] against a float raises. *)
Definition min_with (min_margin : pyfloat) (margin : option pyfloat)
  : result pyfloat :=
  match margin with
  | Some m => Ok (Py.min min_margin m)
  | None => Raise TypeError
  end.

(** The loop [for a in contests[c].assertions] of [set_all_margins]: the
    outcome ([min_margin]), the assertions and [contests[c].margins]
    afterwards.  The call is [find_margin(use_style=use_style)]: [cvr_list]
    keeps its default [None]; and [find_margin] has no [return], so the value
    bound to [margin] is [None]. *)
Fixpoint margins_loop (use_style : bool) (assertions : dict Assertion)
         (margins : dict (option pyfloat)) (min_margin : pyfloat)
  : result pyfloat * dict Assertion * dict (option pyfloat) :=
  match assertions with
  | [] => (Ok min_margin, [], margins)
  | (a, asrt) :: rest =>
      match Assertion.find_margin asrt None use_style with
      | (Raise e, asrt', _) => (Raise e, (a, asrt') :: rest, margins)
      | (Ok _, asrt', _) =>
          let margin : option pyfloat := None in
          let asrt'' := Assertion.set_margin asrt' margin in
          let margins' := update margins a margin in
          match min_with min_margin margin with
          | Raise e => (Raise e, (a, asrt'') :: rest, margins')
          | Ok m =>
              let '(r, rest', margins'') :=
                margins_loop use_style rest margins' m in
              (r, (a, asrt'') :: rest', margins'')
          end
      end
  end.

(** The loop [for c in contests] of [set_all_margins] *)
Fixpoint margins_contests (use_style : bool) (contests : dict Contest)
         (min_margin : pyfloat) : result pyfloat * dict Contest :=
  match contests with
  | [] => (Ok min_margin, [])
  | (c, con) :: rest =>
      let con1 := Contest.set_margins con (Some []) in
      match Contest.assertions con1 with
      | None => (Raise TypeError, (c, con1) :: rest)
      | Some assertions =>
          let '(r, assertions', margins') :=
            margins_loop use_style assertions [] min_margin in
          let con2 :=
            Contest.set_margins (Contest.set_assertions con1 (Some assertions'))
              (Some margins') in
          match r with
          | Raise e => (Raise e, (c, con2) :: rest)
          | Ok m =>
              let (r', rest') := margins_contests use_style rest m in
              (r', (c, con2) :: rest')
          end
      end
  end.

(** [set_all_margins(cls, contests, cvr_list, use_style)]; the source does
    not use [cvr_list]. *)
Definition set_all_margins (contests : dict Contest) (cvr_list : list CVR)
           (use_style : bool) : result pyfloat * dict Contest :=
  margins_contests use_style contests PInf.

(** ** set_all_p_values *)

(** [l[i]] for a list that may be [None] *)
Definition item {A} (l : option (list A)) (i : nat) : result A :=
  match l with
  | None => Raise TypeError
  | Some l => match nth_error l i with
              | Some x => Ok x
              | None => Raise IndexError
              end
  end.

(** The list comprehension of the comparison branch, from index [i] on
    ([mvrs] is [mvr_sample[i:]]).  Its element is the call
    [asrt.overstatement_assorter(mvr_sample[i], cvr_sample[i], margin,
    use_style=use_style)]: the third positional argument binds the parameter
    [use_style], which the keyword then binds again. *)
Fixpoint comparison_d (c : string) (asrt : Assertion) (use_style : bool)
         (cvr_sample : option (list CVR)) (mvrs : list CVR) (i : nat)
  : result (list pyfloat) :=
  match mvrs with
  | [] => Ok []
  | mvr :: rest =>
      keep <- (if negb use_style then Ok true
               else cvr <- item cvr_sample i ;; Ok (has_contest cvr c)) ;;
      if (keep : bool) then
        cvr <- item cvr_sample i ;;
        v <- bad_call ;;
        d <- comparison_d c asrt use_style cvr_sample rest (S i) ;;
        Ok (v :: d)
      else comparison_d c asrt use_style cvr_sample rest (S i)
  end.

(** The sequence [d] handed to the test of assertion [asrt] of the contest
    of key [c]; the bound [u] is computed next to it and not used. *)
Definition discrepancies (c : string) (con : Contest) (asrt : Assertion)
           (mvr_sample : list CVR) (cvr_sample : option (list CVR))
  : result (list pyfloat) :=
  let use_style := Contest.use_style con in
  let margin := Assertion.margin asrt in
  let upper_bound := Assertion.upper_bound asrt in
  if String.eqb (Contest.audit_type con) Audit.BALLOT_COMPARISON then
    d <- comparison_d c asrt use_style cvr_sample mvr_sample 0 ;;
    m <- Assertion.margin_value asrt ;;
    b <- div m (Fin upper_bound) ;;
    _ <- div (Fin 2) (sub (Fin 2) b) ;;
    Ok d
  else if String.eqb (Contest.audit_type con) Audit.POLLING then
    Ok (map (fun mvr => Fin (Assertion.assort asrt mvr)) mvr_sample)
  else Raise NotImplementedError.

(** The assignments to one assertion once [d] is known: [p_value],
    [p_history], then [proved]. *)
Definition update_assertion (con : Contest) (asrt : Assertion)
           (d : list pyfloat) : Assertion :=
  let (p, h) := NonnegMean.test (Assertion.test asrt) d in
  let asrt1 := Assertion.set_p asrt p h in
  Assertion.set_proved asrt1
    (Qle_bool (Assertion.p_value asrt1) (Contest.risk_limit con)
     || Assertion.proved asrt1).

(** The loop [for a in contests[c].assertions] of [set_all_p_values]: the
    outcome ([contest_max_p]), then the assertions, [contests[c].p_values]
    and [contests[c].proved] afterwards. *)
Fixpoint p_values_loop (c : string) (con : Contest) (mvr_sample : list CVR)
         (cvr_sample : option (list CVR)) (assertions : dict Assertion)
         (p_values : dict Q) (proved : dict Z) (contest_max_p : Q)
  : result Q * dict Assertion * dict Q * dict Z :=
  match assertions with
  | [] => (Ok contest_max_p, [], p_values, proved)
  | (a, asrt) :: rest =>
      match discrepancies c con asrt mvr_sample cvr_sample with
      | Raise e => (Raise e, (a, asrt) :: rest, p_values, proved)
      | Ok d =>
          let asrt' := update_assertion con asrt d in
          let p_values' := update p_values a (Assertion.p_value asrt') in
          let proved' :=
            update proved a (if Assertion.proved asrt' then 1%Z else 0%Z) in
          let '(r, rest', pv, pr) :=
            p_values_loop c con mvr_sample cvr_sample rest p_values' proved'
              (np_max contest_max_p (Assertion.p_value asrt')) in
          (r, (a, asrt') :: rest', pv, pr)
      end
  end.

(** The body of the loop [for c in contests.keys()] for one contest: the
    outcome ([contests[c].max_p]) and the contest afterwards. *)
Definition p_values_contest (c : string) (con : Contest)
           (mvr_sample : list CVR) (cvr_sample : option (list CVR))
  : result Q * Contest :=
  let con1 := Contest.set_proved (Contest.set_p_values con (Some [])) (Some []) in
  match Contest.assertions con1 with
  | None => (Raise TypeError, con1)
  | Some assertions =>
      let '(r, assertions', pv, pr) :=
        p_values_loop c con1 mvr_sample cvr_sample assertions [] [] 0 in
      let con2 :=
        Contest.set_proved
          (Contest.set_p_values
             (Contest.set_assertions con1 (Some assertions')) (Some pv))
          (Some pr) in
      match r with
      | Raise e => (Raise e, con2)
      | Ok contest_max_p =>
          (Ok contest_max_p, Contest.set_max_p con2 (Some contest_max_p))
      end
  end.

Fixpoint p_values_contests (contests : dict Contest) (mvr_sample : list CVR)
         (cvr_sample : option (list CVR)) (p_max : Q)
  : result Q * dict Contest :=
  match contests with
  | [] => (Ok p_max, [])
  | (c, con) :: rest =>
      match p_values_contest c con mvr_sample cvr_sample with
      | (Raise e, con') => (Raise e, (c, con') :: rest)
      | (Ok max_p, con') =>
          let (r, rest') :=
            p_values_contests rest mvr_sample cvr_sample (np_max p_max max_p) in
          (r, (c, con') :: rest')
      end
  end.

(** [set_all_p_values(cls, contests, mvr_sample, cvr_sample)]: the outcome
    ([p_max]) and the dict of contests afterwards. *)
Definition set_all_p_values (contests : dict Contest) (mvr_sample : list CVR)
           (cvr_sample : option (list CVR)) : result Q * dict Contest :=
  let lengths_agree :=
    match cvr_sample with
    | Some l => Nat.eqb (List.length mvr_sample) (List.length l)
    | None => true
    end in
  match assert lengths_agree with
  | Raise e => (Raise e, contests)
  | Ok _ => p_values_contests contests mvr_sample cvr_sample 0
  end.

End BatchOperations.

(* ================================================================== *)
(** * class Contest: the methods *)

Section ContestMethods.
Context {CVR : Type} `{BallotRecord CVR}.

Local Abbreviation Assertion := (Assertion.t CVR).
Local Abbreviation Contest := (Contest.t CVR).
Local Open Scope string_scope.

Definition set_sample_size (c : Contest) (n : option Z) : Contest :=
  Contest.mk (Contest.id c) (Contest.name c) (Contest.risk_limit c)
    (Contest.cards c) (Contest.choice_function c) (Contest.n_winners c)
    (Contest.share_to_win c) (Contest.candidates c)
    (Contest.reported_winners c) (Contest.assertion_file c)
    (Contest.audit_type c) (Contest.test c) (Contest.g c) (Contest.estim c)
    (Contest.use_style c) (Contest.assertions c) n (Contest.margins c)
    (Contest.p_values c) (Contest.proved c) (Contest.max_p c)
    (Contest.assertion_json c).

(** The loop of [Contest.sample_size]: [for a in self.assertions] runs over
    the keys of the dict, and a key (a string) has no attribute
    [sample_size]. *)
Fixpoint sample_size_loop (keys : list string) (sample_size : Z) : result Z :=
  match keys with
  | [] => Ok sample_size
  | a :: rest =>
      size <- Assertion.missing_attribute "sample_size" ;;
      sample_size_loop rest (Z.max sample_size size)
  end.

(** [Contest.sample_size(self, reps, quantile, seed, **kwargs)]: the outcome
    and the contest afterwards. *)
Definition contest_sample_size (self : Contest) (reps : option nat)
           (quantile : Q) (seed : Z) : result Z * Contest :=
  let self1 := set_sample_size self (Some 0%Z) in
  match Contest.assertions self1 with
  | None => (Raise TypeError, self1)
  | Some assertions =>
      match sample_size_loop (keys assertions) 0 with
      | Ok n => (Ok n, set_sample_size self1 (Some n))
      | Raise e => (Raise e, self1)
      end
  end.

(** [Contest.initial_sample_size(cls, contests, rate, reps, quantile,
    seed)].  The first statement of the loop, [c.sample_size = 0], assigns an
    attribute of a key of the dict; after the loop the function reads
    [use_style] and [cvr_list], which are not among its names; without
    [use_style] it takes the [max] over the contests, none being left. *)
Definition initial_sample_size (contests : dict Contest)
           (rate : option pyfloat) (reps : option nat) (quantile : Q)
           (seed : Z) : result Q :=
  _ <- match contests with
       | [] => Ok tt
       | _ :: _ => Assertion.missing_attribute "sample_size"
       end ;;
  use_style <- Assertion.undefined_name "use_style" ;;
  if (use_style : bool) then Assertion.undefined_name "cvr_list"
  else Raise ValueError.

(** ** from_dict *)

(** The values of a dict of contest data *)
Inductive pyval : Type :=
| VStr (s : string)
| VFloat (q : Q)
| VInt (z : Z)
| VBool (b : bool)
| VStrList (l : list string).

(** [Contest.ATTRIBUTES] *)
Definition ATTRIBUTES : list string :=
  ["id"; "name"; "risk_limit"; "cards"; "choice_function"; "n_winners";
   "share_to_win"; "candidates"; "reported_winners"; "assertion_file";
   "audit_type"; "test"; "g"; "use_style"; "assertions"; "sample_size"].

(** [Contest().__dict__]: the attributes of a contest built with the
    defaults of [__init__], in the order of its assignments. *)
Definition default_attributes : dict (option pyval) :=
  [("id", None); ("name", None); ("risk_limit", Some (VFloat (5 # 100)));
   ("cards", Some (VInt 0)); ("choice_function", Some (VStr Audit.PLURALITY));
   ("n_winners", Some (VInt 1)); ("share_to_win", None); ("candidates", None);
   ("reported_winners", None); ("assertion_file", None);
   ("audit_type", Some (VStr Audit.BALLOT_COMPARISON)); ("test", None);
   ("g", Some (VFloat (1 # 10))); ("estim", None);
   ("use_style", Some (VBool true)); ("assertions", None);
   ("sample_size", None)].

(** [d.get(att)] *)
Definition dict_get (d : dict (option pyval)) (att : string) : option pyval :=
  match get d att with
  | Some v => v
  | None => None
  end.

(** [Contest.from_dict(cls, d)]: the [__dict__] of the contest returned. *)
Definition from_dict (d : dict (option pyval)) : dict (option pyval) :=
  fold_left (fun contest att => update contest att (dict_get d att))
    ATTRIBUTES default_attributes.

(** [Contest.from_dict_of_dicts(cls, d)] *)
Definition from_dict_of_dicts (d : dict (dict (option pyval)))
  : dict (dict (option pyval)) :=
  fold_left (fun contests kv => update contests (fst kv) (from_dict (snd kv)))
    d [].

End ContestMethods.

(* ================================================================== *)
(** * A concrete ballot record and a concrete test, for closed examples *)

Module Example.
Open Scope string_scope.

(** A ballot: for each contest on the card, the mark (or rank) given to each
    candidate; and the phantom flag. *)
Record ballot : Type := mk_ballot {
  votes : dict (dict Q);
  is_phantom : bool
}.

Definition vote_for (b : ballot) (contest_id candidate : string) : Q :=
  match get (votes b) contest_id with
  | Some marks => match get marks candidate with
                  | Some v => v
                  | None => 0
                  end
  | None => 0
  end.

Definition ranked (b : ballot) (contest_id candidate : string) : bool :=
  negb (Qeq_bool (vote_for b contest_id candidate) 0).

#[export] Instance ballot_record : BallotRecord ballot := {
  has_contest b c := match get (votes b) c with Some _ => true | None => false end;
  phantom := is_phantom;
  get_vote_for := vote_for;
  rcv_lfunc_wo b c winr losr :=
    if ranked b c losr
       && (negb (ranked b c winr)
           || Qlt_bool (vote_for b c losr) (vote_for b c winr))
    then 1 else 0;
  rcv_votefor_cand b c cand remaining :=
    if existsb (String.eqb cand) remaining && ranked b c cand
       && forallb (fun alt =>
                     String.eqb alt cand
                     || negb (ranked b c alt)
                     || Qlt_bool (vote_for b c cand) (vote_for b c alt))
                  remaining
    then 1 else 0
}.

(** A sequential test: the running product of [x + 1/2] over the sample (a
    nonnegative martingale when the mean is 1/2); the p-value is
    [min(1, 1/product)]. *)
Definition term (x : pyfloat) : Q :=
  match x with Fin q => q + (1 # 2) | _ => 1 end.

Fixpoint products (acc : Q) (d : list pyfloat) : list Q :=
  match d with
  | [] => []
  | x :: d' => (acc * term x) :: products (acc * term x) d'
  end.

Definition p_of (t : Q) : Q := Qred (if Qle_bool 1 t then / t else 1).

Definition product_test : NonnegMean.t :=
  NonnegMean.mk
    (fun d => (p_of (fold_left (fun acc x => acc * term x) d 1),
               map p_of (products 1 d)))
    (fun x alpha reps prefix quantile seed => Z.of_nat (List.length x)).

(** Ballots of a contest "mayor" between Alice and Bob *)
Definition for_alice : ballot :=
  mk_ballot [("mayor", [("Alice", 1)])] false.
Definition for_bob : ballot :=
  mk_ballot [("mayor", [("Bob", 1)])] false.
Definition other_card : ballot :=
  mk_ballot [("measure", [("yes", 1)])] false.
Definition phantom_card : ballot :=
  mk_ballot [("mayor", [])] true.

(** "Alice v Bob": the indicators of a vote for Alice and of a vote for
    Bob *)
Definition votes_alice (b : ballot) : Q := vote_for b "mayor" "Alice".
Definition votes_bob (b : ballot) : Q := vote_for b "mayor" "Bob".

Definition alice_v_bob (upper_bound : Q) : Assorter.t ballot :=
  Assorter.mk (Some "mayor") (Assorter.Callable votes_alice)
    (Assorter.Callable votes_bob) upper_bound
    (fun cvr => (votes_alice cvr - votes_bob cvr + 1) / 2).

(** An assorter with upper bound 1/2: half the indicator of a vote for
    Alice. *)
Definition half_alice : Assorter.t ballot :=
  Assorter.mk (Some "mayor") Assorter.PyNone Assorter.PyNone (1 # 2)
    (fun cvr => votes_alice cvr / 2).

Definition mayor_ref (audit_type : string) : ContestRef.t :=
  ContestRef.mk "mayor" (5 # 100) audit_type.

Definition assertion_of (audit_type : string) (a : Assorter.t ballot)
           (margin : option pyfloat) : Assertion.t ballot :=
  Assertion.set_margin
    (Assertion.init (mayor_ref audit_type) a product_test) margin.

Definition mayor (audit_type : string) (use_style : bool)
           (assertions : option (dict (Assertion.t ballot)))
  : Contest.t ballot :=
  Contest.mk "mayor" (Some "Mayor") (5 # 100) 100 Audit.PLURALITY 1 None
    (Some ["Alice"; "Bob"]) (Some ["Alice"]) None audit_type None (Some (1 # 10))
    None use_style assertions None None None None None None.

Definition a_polling : Assertion.t ballot :=
  assertion_of Audit.POLLING (alice_v_bob 1) (Some (Fin (2 # 10))).

Definition polling_contests (use_style : bool) : dict (Contest.t ballot) :=
  [("mayor", mayor Audit.POLLING use_style (Some [("Alice v Bob", a_polling)]))].

Definition eight_for_alice : list ballot := repeat for_alice 8.

Definition a_comparison : Assertion.t ballot :=
  assertion_of Audit.BALLOT_COMPARISON (alice_v_bob 1) (Some (Fin (2 # 10))).

Definition a_half : Assertion.t ballot :=
  assertion_of Audit.BALLOT_COMPARISON half_alice (Some (Fin (1 # 4))).

(** The contests after a first sample of eight ballots for Alice *)
Definition after_first_sample : dict (Contest.t ballot) :=
  snd (set_all_p_values (polling_contests false) eight_for_alice None).

(** A constructor of tests that ignores its arguments *)
Definition new_test : NonnegMean.constructor :=
  fun test estim g u N => product_test.

(** A plurality contest before its assertions are made *)
Definition new_contests : dict (Contest.t ballot) :=
  [("mayor", mayor Audit.POLLING true None)].

(** A card of the contest "mayor" without a mark *)
Definition blank_card : ballot :=
  mk_ballot [("mayor", [])] false.

(** An assorter that scores every card 1/2 *)
Definition tie : Assorter.t ballot :=
  Assorter.mk (Some "mayor") Assorter.PyNone Assorter.PyNone 1
    (fun _ => 1 # 2).

Definition a_tie : Assertion.t ballot :=
  assertion_of Audit.POLLING tie None.

(** RAIRE records for "mayor" *)
Definition winner_only : Json.assertion :=
  Json.mk "Alice" "Bob" "WINNER_ONLY" None.
Definition elimination : Json.assertion :=
  Json.mk "Alice" "Bob" "IRV_ELIMINATION" (Some ["Carol"]).
Definition unknown_type : Json.assertion :=
  Json.mk "Alice" "Bob" "NEB" None.

(** A comparison contest that uses style, with the assertion
    [a_comparison] *)
Definition comparison_contest : Contest.t ballot :=
  mayor Audit.BALLOT_COMPARISON true (Some [("Alice v Bob", a_comparison)]).

(** A contest of an audit type that is not implemented *)
Definition batch_contest : Contest.t ballot :=
  mayor "BATCH_COMPARISON" true (Some [("Alice v Bob", a_polling)]).

(** Dicts of contest data *)
Definition mayor_data : dict (option pyval) :=
  [("id", Some (VStr "mayor")); ("cards", Some (VInt 100));
   ("estim", Some (VStr "optimal_comparison"));
   ("candidates", Some (VStrList ["Alice"; "Bob"]))].
Definition measure_data : dict (option pyval) :=
  [("id", Some (VStr "measure")); ("risk_limit", Some (VFloat (1 # 10)))].

End Example.

(* ================================================================== *)
(** * The statements of the specification *)

Section Statements.
Context {CVR : Type} `{BallotRecord CVR}.

(** The overstatement as the specification words it: the value on the side
    of the CVR, the value on the side of the MVR, and their difference. *)
Definition cvr_side (self : Assertion.t CVR) (cvr : CVR) : Q :=
  if phantom cvr then 1 # 2 else Assertion.assort self cvr.

Definition mvr_side (self : Assertion.t CVR) (mvr : CVR) : Q :=
  if phantom mvr then 0
  else if has_contest mvr (ContestRef.id (Assertion.contest self))
       then Assertion.assort self mvr
       else 0.

Definition overstatement_spec (self : Assertion.t CVR) (mvr cvr : CVR)
           (use_style : bool) : result Q :=
  if use_style then
    if has_contest cvr (ContestRef.id (Assertion.contest self))
    then Ok (cvr_side self cvr - mvr_side self mvr)
    else Raise ValueError
  else
    Ok (Assertion.assort self cvr
        - (if phantom mvr then 0 else Assertion.assort self mvr)).

(** ** Before and after a call of [set_all_p_values] *)

(** An assertion after its update in the contest of key [c] *)
Definition updated (mvr_sample : list CVR) (cvr_sample : option (list CVR))
           (c : string) (con : Contest.t CVR) (x x' : Assertion.t CVR) : Prop :=
  exists d, discrepancies c con x mvr_sample cvr_sample = Ok d
            /\ x' = update_assertion con x d.

(** An entry of the dict of assertions before and after a call: updated, or
    left as it was when the call raised. *)
Definition entry_step (mvr_sample : list CVR) (cvr_sample : option (list CVR))
           (c : string) (con : Contest.t CVR) (ok : bool)
           (kv kv' : string * Assertion.t CVR) : Prop :=
  fst kv = fst kv'
  /\ (updated mvr_sample cvr_sample c con (snd kv) (snd kv')
      \/ (ok = false /\ snd kv' = snd kv)).

Definition assertions_step (mvr_sample : list CVR)
           (cvr_sample : option (list CVR)) (c : string) (con : Contest.t CVR)
           (ok : bool) (o o' : option (dict (Assertion.t CVR))) : Prop :=
  match o, o' with
  | Some l, Some l' => Forall2 (entry_step mvr_sample cvr_sample c con ok) l l'
  | None, None => True
  | _, _ => False
  end.

(** [max_p] of a contest is the largest of 0 and the p-values of its
    assertions. *)
Definition max_p_rolled_up (con' : Contest.t CVR) : Prop :=
  exists m l',
    Contest.max_p con' = Some m /\ Contest.assertions con' = Some l'
    /\ forall alpha : Q,
         m <= alpha
         <-> 0 <= alpha
             /\ Forall (fun kv => Assertion.p_value (snd kv) <= alpha) l'.

(** An entry of the dict of contests before and after a call *)
Definition contest_step (mvr_sample : list CVR)
           (cvr_sample : option (list CVR)) (ok : bool)
           (kv kv' : string * Contest.t CVR) : Prop :=
  fst kv = fst kv'
  /\ Contest.risk_limit (snd kv') = Contest.risk_limit (snd kv)
  /\ assertions_step mvr_sample cvr_sample (fst kv) (snd kv) ok
       (Contest.assertions (snd kv)) (Contest.assertions (snd kv'))
  /\ (ok = true -> max_p_rolled_up (snd kv')).

(** ** set_all_margins *)

(** No assertion to look at: the dict of assertions of the contest is
    empty. *)
Definition no_assertion (kv : string * Contest.t CVR) : bool :=
  match Contest.assertions (snd kv) with
  | Some [] => true
  | _ => false
  end.

(** The margins that a dict of contests holds: for each contest, in order,
    the margin of each of its assertions and its dict [margins]. *)
Definition stored_margins (contests : dict (Contest.t CVR))
  : list (string * option (dict (option pyfloat))
          * option (dict (option pyfloat))) :=
  map (fun kv =>
         (fst kv,
          option_map (map (fun ax => (fst ax, Assertion.margin (snd ax))))
            (Contest.assertions (snd kv)),
          Contest.margins (snd kv)))
      contests.

End Statements.

(* ================================================================== *)
(** * Further notions used in statements *)

Section MoreStatements.
Context {CVR : Type} `{BallotRecord CVR}.

(** The cards that [assorter_mean] and [assorter_sum] count *)
Definition counted (self : Assertion.t CVR) (use_style : bool)
           (l : list CVR) : list CVR :=
  filter (fun c => if use_style
                   then has_contest c (ContestRef.id (Assertion.contest self))
                   else true) l.

(** [len(l)] as a float *)
Definition size (A : Type) (l : list A) : Q :=
  inject_Z (Z.of_nat (List.length l)).

(** An assertion as a factory leaves it: upper bound 1, the defaults of
    [Assertion.__init__], and the contest it was made for. *)
Definition fresh_for (contest : Contest.t CVR) (a : Assertion.t CVR) : Prop :=
  Assertion.upper_bound a = 1
  /\ Assertion.margin a = None
  /\ Assertion.proved a = false
  /\ Assertion.p_value a = 1
  /\ Assertion.p_history a = []
  /\ Assertion.contest a = Contest.ref contest.

(** The dicts [p_values] and [proved] of a contest repeat what its
    assertions hold. *)
Definition dicts_mirror_assertions (con' : Contest.t CVR) : Prop :=
  exists l' pv pr,
    Contest.assertions con' = Some l'
    /\ Contest.p_values con' = Some pv
    /\ Contest.proved con' = Some pr
    /\ forall a x, In (a, x) l' ->
                   get pv a = Some (Assertion.p_value x)
                   /\ get pr a = Some (if Assertion.proved x then 1%Z else 0%Z).

End MoreStatements.

(* ================================================================== *)
(** * Overstatement *)

Section Overstatement.
Context {CVR : Type} `{BallotRecord CVR}.

(** C1. For every pair of ballot records, [overstatement] with
    [use_style=True] raises when the CVR does not contain the contest of the
    assertion, and otherwise returns the CVR-side value (1/2 for a phantom
    CVR, else its assort value) minus the MVR-side value (0 for an MVR that
    is phantom or lacks the contest, else its assort value); with
    [use_style=False] it returns [assort(cvr)] minus [assort(mvr)], the
    latter replaced by 0 for a phantom MVR. *)
Theorem overstatement_meets_spec :
  forall (self : Assertion.t CVR) (mvr cvr : CVR) (use_style : bool),
    Assertion.overstatement self mvr cvr use_style
    = overstatement_spec self mvr cvr use_style.
Proof.
  intros self mvr cvr use_style.
  unfold Assertion.overstatement, overstatement_spec, cvr_side, mvr_side.
  destruct use_style; simpl.
  - destruct (has_contest cvr _); [ | reflexivity ].
    destruct (phantom mvr); simpl; [ reflexivity | ].
    destruct (has_contest mvr _); reflexivity.
  - destruct (phantom mvr); reflexivity.
Qed.

(** Scenario D of the specification: a phantom CVR (which carries the
    contest) against an MVR that is not phantom and contains the contest. *)
Lemma overstatement_of_phantom_cvr :
  forall (self : Assertion.t CVR) (mvr cvr : CVR),
    phantom cvr = true ->
    has_contest cvr (ContestRef.id (Assertion.contest self)) = true ->
    phantom mvr = false ->
    has_contest mvr (ContestRef.id (Assertion.contest self)) = true ->
    Assertion.overstatement self mvr cvr true
    = Ok ((1 # 2) - Assertion.assort self mvr).
Proof.
  intros self mvr cvr Hpc Hcc Hpm Hcm. unfold Assertion.overstatement.
  simpl. rewrite Hcc, Hpc, Hpm, Hcm. reflexivity.
Qed.

End Overstatement.

(* ================================================================== *)
(** * The overstatement assorter *)

Section Rescale.
Context {CVR : Type} `{BallotRecord CVR}.

Lemma ratio_bounds :
  forall m u : Q, 0 < m -> m <= u -> 0 < m / u /\ m / u <= 1.
Proof.
  intros m u Hm Hmu.
  assert (Hu : 0 < u) by (eapply Qlt_le_trans; eauto).
  split.
  - apply Qlt_shift_div_l; [ exact Hu | ]. lra.
  - apply Qle_shift_div_r; [ exact Hu | ]. lra.
Qed.

Lemma Qeq_bool_false_of_neq : forall x : Q, ~ x == 0 -> Qeq_bool x 0 = false.
Proof.
  intros x Hx. destruct (Qeq_bool x 0) eqn:E; [ | reflexivity ].
  apply Qeq_bool_iff in E. contradiction.
Qed.

Lemma rescale_value :
  forall (self : Assertion.t CVR) (o m : Q),
    Assertion.margin self = Some (Fin m) ->
    ~ Assertion.upper_bound self == 0 ->
    ~ 2 - m / Assertion.upper_bound self == 0 ->
    Assertion.rescale self o
    = Ok (Fin ((1 - o / Assertion.upper_bound self)
               / (2 - m / Assertion.upper_bound self))).
Proof.
  intros self o m Hmargin Hu Hden.
  unfold Assertion.rescale, Assertion.margin_value, qdiv.
  rewrite Hmargin. simpl.
  rewrite (Qeq_bool_false_of_neq Hu). simpl.
  rewrite Qeq_bool_false_of_neq; [ reflexivity | exact Hden ].
Qed.

Lemma rescale_bounds :
  forall o m u : Q,
    0 < m -> m <= u -> - u <= o -> o <= u ->
    0 <= (1 - o / u) / (2 - m / u)
    /\ (1 - o / u) / (2 - m / u) <= 2 / (2 - m / u).
Proof.
  intros o m u Hm Hmu Hlo Hhi.
  assert (Hu : 0 < u) by (eapply Qlt_le_trans; eauto).
  destruct (ratio_bounds Hm Hmu) as [Hr0 Hr1].
  assert (Hx1 : o / u <= 1) by (apply Qle_shift_div_r; [ exact Hu | lra ]).
  assert (Hx0 : - (1) <= o / u) by (apply Qle_shift_div_l; [ exact Hu | lra ]).
  assert (Hden : 0 < 2 - m / u) by lra.
  split.
  - apply Qle_shift_div_l; [ exact Hden | lra ].
  - change ((1 - o / u) * / (2 - m / u) <= 2 * / (2 - m / u)).
    apply Qmult_le_compat_r; [ lra | ].
    apply Qlt_le_weak, Qinv_lt_0_compat, Hden.
Qed.

(** C2 (amended). When [overstatement] returns [o], a margin [m] is stored
    and neither [u] nor [2 - m/u] is zero, with [u] the upper bound of the
    assorter, [overstatement_assorter] returns [(1 - o/u)/(2 - m/u)]; and
    when [0 < m <= u], for every [o] in [[-u, u]] this value lies in
    [[0, 2/(2 - m/u)]]. *)
Theorem overstatement_assorter_value :
  forall (self : Assertion.t CVR) (mvr cvr : CVR) (use_style : bool) (o m : Q),
    Assertion.overstatement self mvr cvr use_style = Ok o ->
    Assertion.margin self = Some (Fin m) ->
    let u := Assertion.upper_bound self in
    let v := (1 - o / u) / (2 - m / u) in
    (~ u == 0 -> ~ 2 - m / u == 0 ->
     Assertion.overstatement_assorter self mvr cvr use_style = Ok (Fin v))
    /\ (0 < m -> m <= u ->
        Assertion.overstatement_assorter self mvr cvr use_style = Ok (Fin v)
        /\ (- u <= o -> o <= u -> 0 <= v /\ v <= 2 / (2 - m / u))).
Proof.
  intros self mvr cvr use_style o m Ho Hmargin u v.
  assert (Hvalue : ~ u == 0 -> ~ 2 - m / u == 0 ->
                   Assertion.overstatement_assorter self mvr cvr use_style
                   = Ok (Fin v)).
  { intros Hu Hden. unfold Assertion.overstatement_assorter.
    rewrite Ho. simpl. apply rescale_value; assumption. }
  split; [ exact Hvalue | ].
  intros Hm Hmu.
  assert (Hu : 0 < u) by (eapply Qlt_le_trans; eauto).
  destruct (ratio_bounds Hm Hmu) as [Hr0 Hr1]. fold u in Hr0, Hr1.
  split.
  - apply Hvalue; intros Hz.
    + rewrite Hz in Hu. exact (Qlt_irrefl 0 Hu).
    + assert (Hpos : 0 < 2 - m / u) by lra.
      rewrite Hz in Hpos. exact (Qlt_irrefl 0 Hpos).
  - intros Hlo Hhi. apply rescale_bounds; assumption.
Qed.

(** An assertion whose margin has not been set: the arithmetic on [None]
    raises. *)
Lemma overstatement_assorter_without_margin :
  forall (self : Assertion.t CVR) (mvr cvr : CVR) (use_style : bool) (o : Q),
    Assertion.overstatement self mvr cvr use_style = Ok o ->
    Assertion.margin self = None ->
    ~ Assertion.upper_bound self == 0 ->
    Assertion.overstatement_assorter self mvr cvr use_style = Raise TypeError.
Proof.
  intros self mvr cvr use_style o Ho Hmargin Hu.
  unfold Assertion.overstatement_assorter, Assertion.rescale,
    Assertion.margin_value, qdiv.
  rewrite Ho, Hmargin. simpl.
  rewrite (Qeq_bool_false_of_neq Hu). reflexivity.
Qed.

End Rescale.

(* ================================================================== *)
(** * P-value propagation *)

Section Lookup.
Context {V W : Type} (R : string * V -> string * W -> Prop).
Hypothesis same_key : forall kv kv', R kv kv' -> fst kv = fst kv'.

Lemma get_forward :
  forall l l' k v,
    Forall2 R l l' -> get l k = Some v ->
    exists k' v', get l' k = Some v' /\ R (k', v) (k', v') /\ k' = k.
Proof.
  intros l l' k v HF. induction HF as [ | [k1 v1] [k2 v2] l l' HR _ IH ];
    simpl; intros Hget; [ discriminate | ].
  pose proof (same_key HR) as Hk. simpl in Hk. subst k2.
  destruct (String.eqb k k1) eqn:E; [ | apply IH, Hget ].
  inversion Hget; subst. apply String.eqb_eq in E. subst k1.
  exists k, v2. repeat split. exact HR.
Qed.

Lemma get_backward :
  forall l l' k v',
    Forall2 R l l' -> get l' k = Some v' ->
    exists v, get l k = Some v /\ R (k, v) (k, v').
Proof.
  intros l l' k v' HF. induction HF as [ | [k1 v1] [k2 v2] l l' HR _ IH ];
    simpl; intros Hget; [ discriminate | ].
  pose proof (same_key HR) as Hk. simpl in Hk. subst k2.
  destruct (String.eqb k k1) eqn:E; [ | apply IH, Hget ].
  inversion Hget; subst. apply String.eqb_eq in E. subst k1.
  exists v1. split; [ reflexivity | exact HR ].
Qed.

End Lookup.


Section PValueLemmas.
Context {CVR : Type} `{BallotRecord CVR}.
Variables (mvr_sample : list CVR) (cvr_sample : option (list CVR)).

Lemma entry_step_same :
  forall c con l, Forall2 (entry_step mvr_sample cvr_sample c con false) l l.
Proof.
  intros c con l. induction l as [ | kv l IH ]; constructor; [ | exact IH ].
  split; [ reflexivity | right; split; reflexivity ].
Qed.

Lemma entry_step_weaken :
  forall c con ok l l',
    Forall2 (entry_step mvr_sample cvr_sample c con true) l l' ->
    Forall2 (entry_step mvr_sample cvr_sample c con ok) l l'.
Proof.
  intros c con ok l l' HF. induction HF as [ | kv kv' l l' [Hk Hs] _ IH ];
    constructor; [ | exact IH ].
  split; [ exact Hk | ]. destruct Hs as [Hu | [Hf _]]; [ left; exact Hu | discriminate ].
Qed.

Lemma p_values_loop_steps :
  forall c con assertions p_values proved contest_max_p r assertions' pv pr,
    p_values_loop c con mvr_sample cvr_sample assertions p_values proved
      contest_max_p = (r, assertions', pv, pr) ->
    Forall2 (entry_step mvr_sample cvr_sample c con (returns r)) assertions assertions'.
Proof.
  intros c con assertions.
  induction assertions as [ | [a asrt] rest IH ];
    intros p_values proved contest_max_p r assertions' pv pr Hloop;
    simpl in Hloop.
  - inversion Hloop; subst. constructor.
  - destruct (discrepancies c con asrt mvr_sample cvr_sample) as [d | e] eqn:Hd.
    + destruct (p_values_loop c con mvr_sample cvr_sample rest _ _ _)
        as [[[r0 rest'] pv0] pr0] eqn:Hrest.
      inversion Hloop; subst. constructor.
      * split; [ reflexivity | left ]. exists d. split; [ exact Hd | reflexivity ].
      * eapply IH. exact Hrest.
    + inversion Hloop; subst. constructor.
      * split; [ reflexivity | right; split; reflexivity ].
      * apply entry_step_same.
Qed.

Lemma np_max_le : forall a b alpha : Q,
  np_max a b <= alpha <-> a <= alpha /\ b <= alpha.
Proof.
  intros a b alpha. unfold np_max.
  destruct (Qle_bool a b) eqn:E.
  - apply Qle_bool_iff in E. split; [ intros Hb | intros [_ Hb]; exact Hb ].
    split; [ eapply Qle_trans; eauto | exact Hb ].
  - assert (Hba : b <= a).
    { destruct (Qlt_le_dec b a) as [Hlt | Hle]; [ apply Qlt_le_weak, Hlt | ].
      apply Qle_bool_iff in Hle. congruence. }
    split; [ intros Ha | intros [Ha _]; exact Ha ].
    split; [ exact Ha | eapply Qle_trans; eauto ].
Qed.

Lemma p_values_loop_max :
  forall c con assertions p_values proved contest_max_p m assertions' pv pr,
    p_values_loop c con mvr_sample cvr_sample assertions p_values proved
      contest_max_p = (Ok m, assertions', pv, pr) ->
    forall alpha : Q,
      m <= alpha
      <-> contest_max_p <= alpha
          /\ Forall (fun kv => Assertion.p_value (snd kv) <= alpha) assertions'.
Proof.
  intros c con assertions.
  induction assertions as [ | [a asrt] rest IH ];
    intros p_values proved contest_max_p m assertions' pv pr Hloop alpha;
    simpl in Hloop.
  - inversion Hloop; subst.
    split; [ intros Hm; split; [ exact Hm | constructor ] | tauto ].
  - destruct (discrepancies c con asrt mvr_sample cvr_sample) as [d | e] eqn:Hd;
      [ | discriminate ].
    destruct (p_values_loop c con mvr_sample cvr_sample rest _ _ _)
      as [[[r0 rest'] pv0] pr0] eqn:Hrest.
    inversion Hloop; subst.
    rewrite (IH _ _ _ _ _ _ _ Hrest alpha), np_max_le.
    split.
    + intros [[Hc Hp] HF]. split; [ exact Hc | constructor; [ exact Hp | exact HF ] ].
    + intros [Hc HF]. inversion HF; subst. tauto.
Qed.


Lemma contest_step_same :
  forall l, Forall2 (contest_step mvr_sample cvr_sample false) l l.
Proof.
  intros l. induction l as [ | [c con] l IH ]; constructor; [ | exact IH ].
  repeat split; try discriminate. simpl.
  destruct (Contest.assertions con); simpl; [ apply entry_step_same | exact I ].
Qed.

Lemma contest_step_weaken :
  forall ok kv kv',
    contest_step mvr_sample cvr_sample true kv kv' ->
    contest_step mvr_sample cvr_sample ok kv kv'.
Proof.
  intros ok kv kv' (Hk & Hr & Ha & Hm). repeat split; try assumption.
  - unfold assertions_step in *.
    destruct (Contest.assertions (snd kv)), (Contest.assertions (snd kv'));
      try assumption.
    apply entry_step_weaken, Ha.
  - intros _. apply Hm. reflexivity.
Qed.

Lemma p_values_contest_step :
  forall c con r con',
    p_values_contest c con mvr_sample cvr_sample = (r, con') ->
    contest_step mvr_sample cvr_sample (returns r) (c, con) (c, con').
Proof.
  intros c con r con' Hc. unfold p_values_contest in Hc. simpl in Hc.
  destruct (Contest.assertions con) as [l | ] eqn:Hl.
  - destruct (p_values_loop c _ mvr_sample cvr_sample l [] [] 0)
      as [[[r0 l'] pv] pr] eqn:Hloop.
    pose proof Hloop as Hsteps. apply p_values_loop_steps in Hsteps.
    assert (Hsteps' : Forall2 (entry_step mvr_sample cvr_sample c con (returns r0)) l l').
    { clear - Hsteps. induction Hsteps as [ | kv kv' l l' [Hk Hs] _ IH ];
        constructor; [ | exact IH ].
      split; [ exact Hk | ].
      destruct Hs as [[d [Hd Hx]] | Hs]; [ left; exists d | right; exact Hs ].
      split; [ exact Hd | exact Hx ]. }
    destruct r0 as [m | e]; inversion Hc; subst; simpl;
      (split; [ reflexivity | split; [ reflexivity | ] ]); simpl; rewrite Hl; simpl.
    + split; [ exact Hsteps' | intros _ ].
      exists m, l'. simpl. split; [ reflexivity | split; [ reflexivity | ] ].
      intros alpha. eapply p_values_loop_max. exact Hloop.
    + split; [ exact Hsteps' | discriminate ].
  - inversion Hc; subst; simpl.
    split; [ reflexivity | split; [ reflexivity | ] ]. simpl. rewrite Hl. simpl.
    split; [ exact I | discriminate ].
Qed.

Lemma p_values_contests_steps :
  forall contests p_max r contests',
    p_values_contests contests mvr_sample cvr_sample p_max = (r, contests') ->
    Forall2 (contest_step mvr_sample cvr_sample (returns r)) contests contests'.
Proof.
  intros contests.
  induction contests as [ | [c con] rest IH ]; intros p_max r contests' Hc;
    simpl in Hc.
  - inversion Hc; subst. constructor.
  - destruct (p_values_contest c con mvr_sample cvr_sample) as [r0 con'] eqn:Hcon.
    pose proof Hcon as Hstep. apply p_values_contest_step in Hstep.
    destruct r0 as [m | e].
    + destruct (p_values_contests rest mvr_sample cvr_sample _)
        as [r1 rest'] eqn:Hrest.
      inversion Hc; subst. constructor.
      * apply contest_step_weaken, Hstep.
      * eapply IH. exact Hrest.
    + inversion Hc; subst. constructor; [ exact Hstep | apply contest_step_same ].
Qed.

Lemma set_all_p_values_steps :
  forall contests r contests',
    set_all_p_values contests mvr_sample cvr_sample = (r, contests') ->
    Forall2 (contest_step mvr_sample cvr_sample (returns r)) contests contests'.
Proof.
  intros contests r contests' Hc. unfold set_all_p_values in Hc.
  destruct (assert _) as [ [] | e ].
  - eapply p_values_contests_steps. exact Hc.
  - inversion Hc; subst. apply contest_step_same.
Qed.

End PValueLemmas.


Section PValueTheorems.
Context {CVR : Type} `{BallotRecord CVR}.

Lemma entry_step_key :
  forall mvr cvr c (con : Contest.t CVR) ok kv kv',
    entry_step mvr cvr c con ok kv kv' -> fst kv = fst kv'.
Proof. intros mvr cvr c con ok kv kv' [Hk _]. exact Hk. Qed.

Lemma contest_step_key :
  forall mvr cvr ok (kv kv' : string * Contest.t CVR),
    contest_step mvr cvr ok kv kv' -> fst kv = fst kv'.
Proof. intros mvr cvr ok kv kv' [Hk _]. exact Hk. Qed.

Lemma update_assertion_proved :
  forall (con : Contest.t CVR) (x : Assertion.t CVR) d,
    Assertion.proved (update_assertion con x d)
    = Qle_bool (Assertion.p_value (update_assertion con x d))
        (Contest.risk_limit con)
      || Assertion.proved x.
Proof.
  intros con x d. unfold update_assertion.
  destruct (NonnegMean.test (Assertion.test x) d) as [p h]. reflexivity.
Qed.

Lemma update_assertion_p :
  forall (con : Contest.t CVR) (x : Assertion.t CVR) d,
    Assertion.p_value (update_assertion con x d)
    = fst (NonnegMean.test (Assertion.test x) d)
    /\ Assertion.p_history (update_assertion con x d)
       = snd (NonnegMean.test (Assertion.test x) d).
Proof.
  intros con x d. unfold update_assertion.
  destruct (NonnegMean.test (Assertion.test x) d) as [p h]. split; reflexivity.
Qed.

Lemma steps_all_proved :
  forall mvr cvr c (con : Contest.t CVR) l l',
    Forall2 (entry_step mvr cvr c con true) l l' ->
    Forall (fun kv => Assertion.p_value (snd kv) <= Contest.risk_limit con) l' ->
    Forall (fun kv => Assertion.proved (snd kv) = true) l'.
Proof.
  intros mvr cvr c con l l' Hstep.
  induction Hstep as [ | [k x] [k' x'] l l' [_ Hup] _ IH ];
    intros Hle; constructor; inversion Hle; subst; simpl in *.
  - destruct Hup as [(d & _ & ->) | [Hf _]]; [ | discriminate ].
    rewrite update_assertion_proved.
    apply orb_true_iff. left. apply Qle_bool_iff. assumption.
  - apply IH. assumption.
Qed.

Lemma steps_all_below :
  forall mvr cvr c (con : Contest.t CVR) l l',
    Forall2 (entry_step mvr cvr c con true) l l' ->
    Forall (fun kv => Assertion.proved (snd kv) = false) l ->
    Forall (fun kv => Assertion.proved (snd kv) = true) l' ->
    Forall (fun kv => Assertion.p_value (snd kv) <= Contest.risk_limit con) l'.
Proof.
  intros mvr cvr c con l l' Hstep.
  induction Hstep as [ | [k x] [k' x'] l l' [_ Hup] _ IH ];
    intros Hbefore Hafter; constructor;
    inversion Hbefore; subst; inversion Hafter; subst; simpl in *.
  - destruct Hup as [(d & _ & ->) | [Hf _]]; [ | discriminate ].
    match goal with
    | Ht : Assertion.proved (update_assertion _ _ _) = true |- _ =>
        rewrite update_assertion_proved in Ht;
        apply orb_true_iff in Ht; destruct Ht as [Ht | Ht];
        [ apply Qle_bool_iff in Ht; exact Ht | congruence ]
    end.
  - apply IH; assumption.
Qed.

(** C5. Whatever the samples, and whether the call returns or raises, an
    assertion whose [proved] is true before a call of [set_all_p_values] has
    [proved] true after it; and when the call returns, [proved] is true
    after it exactly when the new [p_value] is at most the risk limit of the
    contest or [proved] was true before. *)
Theorem proved_is_monotone :
  forall (contests : dict (Contest.t CVR)) mvr_sample cvr_sample r contests'
         c con l a asrt,
    set_all_p_values contests mvr_sample cvr_sample = (r, contests') ->
    get contests c = Some con ->
    Contest.assertions con = Some l ->
    get l a = Some asrt ->
    exists con' l' asrt',
      get contests' c = Some con'
      /\ Contest.assertions con' = Some l'
      /\ get l' a = Some asrt'
      /\ (Assertion.proved asrt = true -> Assertion.proved asrt' = true)
      /\ (returns r = true ->
          Assertion.proved asrt'
          = Qle_bool (Assertion.p_value asrt') (Contest.risk_limit con)
            || Assertion.proved asrt).
Proof.
  intros contests mvr_sample cvr_sample r contests' c con l a asrt
         Hcall Hcon Hl Ha.
  apply set_all_p_values_steps in Hcall.
  destruct (@get_forward _ _ _
              (@contest_step_key mvr_sample cvr_sample (returns r))
              _ _ _ _ Hcall Hcon) as (c0 & con' & Hcon' & (_ & _ & Hstep & _) & ->).
  simpl in Hstep. rewrite Hl in Hstep. unfold assertions_step in Hstep.
  destruct (Contest.assertions con') as [l' | ] eqn:Hl'; [ | contradiction ].
  destruct (@get_forward _ _ _
              (@entry_step_key mvr_sample cvr_sample c con (returns r))
              _ _ _ _ Hstep Ha) as (a0 & asrt' & Ha' & (_ & Hup) & ->).
  exists con', l', asrt'. repeat split; try assumption; simpl in Hup.
  - intros Hp. destruct Hup as [(d & _ & ->) | [_ ->]]; [ | exact Hp ].
    rewrite update_assertion_proved, Hp. apply orb_true_r.
  - intros Hok. destruct Hup as [(d & _ & ->) | [Hf _]]; [ | congruence ].
    apply update_assertion_proved.
Qed.

(** C4 (amended). After a call of [set_all_p_values] that returns, for
    every contest of the dict: if [max_p <= risk_limit] then every assertion
    of the contest has [proved] true; and if the risk limit is not negative,
    no assertion of the contest was proved before the call, and every
    assertion has [proved] true after it, then [max_p <= risk_limit]. *)
Theorem max_p_below_risk_limit_implies_proved :
  forall (contests : dict (Contest.t CVR)) mvr_sample cvr_sample p contests'
         c con',
    set_all_p_values contests mvr_sample cvr_sample = (Ok p, contests') ->
    get contests' c = Some con' ->
    exists m l' con l,
      Contest.max_p con' = Some m
      /\ Contest.assertions con' = Some l'
      /\ get contests c = Some con
      /\ Contest.assertions con = Some l
      /\ (m <= Contest.risk_limit con' ->
          Forall (fun kv => Assertion.proved (snd kv) = true) l')
      /\ (0 <= Contest.risk_limit con' ->
          Forall (fun kv => Assertion.proved (snd kv) = false) l ->
          Forall (fun kv => Assertion.proved (snd kv) = true) l' ->
          m <= Contest.risk_limit con').
Proof.
  intros contests mvr_sample cvr_sample p contests' c con' Hcall Hcon'.
  apply set_all_p_values_steps in Hcall. simpl in Hcall.
  destruct (@get_backward _ _ _
              (@contest_step_key mvr_sample cvr_sample true)
              _ _ _ _ Hcall Hcon') as (con & Hcon & (_ & Hrisk & Hstep & Hmax)).
  simpl in Hrisk, Hstep, Hmax.
  destruct (Hmax eq_refl) as (m & l' & Hm & Hl' & Hroll).
  rewrite Hl' in Hstep. unfold assertions_step in Hstep.
  destruct (Contest.assertions con) as [l | ] eqn:Hl; [ | contradiction ].
  exists m, l', con, l. repeat split; try assumption.
  - intros Hle. apply Hroll in Hle. destruct Hle as [_ Hle].
    rewrite Hrisk in Hle. eapply steps_all_proved; eassumption.
  - intros Hpos Hbefore Hafter. apply Hroll. split; [ exact Hpos | ].
    rewrite Hrisk. eapply steps_all_below; eassumption.
Qed.

End PValueTheorems.

Section Polling.
Context {CVR : Type} `{BallotRecord CVR}.

Lemma discrepancies_polling :
  forall c (con : Contest.t CVR) asrt mvr_sample cvr_sample,
    Contest.audit_type con = Audit.POLLING ->
    discrepancies c con asrt mvr_sample cvr_sample
    = Ok (map (fun mvr => Fin (Assertion.assort asrt mvr)) mvr_sample).
Proof.
  intros c con asrt mvr_sample cvr_sample Haudit.
  unfold discrepancies. rewrite Haudit. reflexivity.
Qed.

Lemma p_values_loop_polling :
  forall c (con : Contest.t CVR) mvr_sample cvr_sample,
    Contest.audit_type con = Audit.POLLING ->
    forall assertions p_values proved contest_max_p,
      returns (fst (fst (fst (p_values_loop c con mvr_sample cvr_sample
                                assertions p_values proved contest_max_p))))
      = true.
Proof.
  intros c con mvr_sample cvr_sample Haudit assertions.
  induction assertions as [ | [a asrt] rest IH ];
    intros p_values proved contest_max_p; simpl; [ reflexivity | ].
  rewrite discrepancies_polling by exact Haudit.
  match goal with
  | |- context [p_values_loop c con mvr_sample cvr_sample rest ?pv ?pr ?m] =>
      specialize (IH pv pr m);
      destruct (p_values_loop c con mvr_sample cvr_sample rest pv pr m)
        as [[[r0 rest'] pv0] pr0]
  end.
  exact IH.
Qed.

Lemma p_values_contest_polling :
  forall c (con : Contest.t CVR) mvr_sample cvr_sample,
    Contest.audit_type con = Audit.POLLING ->
    Contest.assertions con <> None ->
    returns (fst (p_values_contest c con mvr_sample cvr_sample)) = true.
Proof.
  intros c con mvr_sample cvr_sample Haudit Hsome.
  unfold p_values_contest. simpl.
  destruct (Contest.assertions con) as [l | ]; [ | congruence ].
  match goal with
  | |- context [p_values_loop c ?con1 mvr_sample cvr_sample l [] [] 0] =>
      pose proof (@p_values_loop_polling c con1 mvr_sample cvr_sample Haudit
                    l [] [] 0) as Hloop;
      destruct (p_values_loop c con1 mvr_sample cvr_sample l [] [] 0)
        as [[[r0 l'] pv] pr]
  end.
  simpl in Hloop. destruct r0; [ reflexivity | discriminate ].
Qed.

Lemma set_all_p_values_returns_for_polling :
  forall (contests : dict (Contest.t CVR)) mvr_sample cvr_sample,
    Forall (fun kv => Contest.audit_type (snd kv) = Audit.POLLING
                      /\ Contest.assertions (snd kv) <> None) contests ->
    match cvr_sample with
    | Some l => List.length mvr_sample = List.length l
    | None => True
    end ->
    returns (fst (set_all_p_values contests mvr_sample cvr_sample)) = true.
Proof.
  intros contests mvr_sample cvr_sample Hall Hlen.
  unfold set_all_p_values.
  assert (Hassert : match cvr_sample with
                    | Some l => Nat.eqb (List.length mvr_sample) (List.length l)
                    | None => true
                    end = true).
  { destruct cvr_sample; [ apply Nat.eqb_eq, Hlen | reflexivity ]. }
  rewrite Hassert. simpl.
  generalize 0 as p_max.
  induction Hall as [ | [c con] rest [Haudit Hsome] _ IH ]; intros p_max;
    simpl; [ reflexivity | ].
  pose proof (@p_values_contest_polling c con mvr_sample cvr_sample Haudit Hsome)
    as Hcon.
  destruct (p_values_contest c con mvr_sample cvr_sample) as [[m | e] con'];
    [ | discriminate ].
  specialize (IH (np_max p_max m)).
  destruct (p_values_contests rest mvr_sample cvr_sample (np_max p_max m)).
  exact IH.
Qed.

Lemma comparison_d_skips_cards_without_contest :
  forall c (asrt : Assertion.t CVR) cvrs mvrs i,
    (forall j cvr, nth_error cvrs j = Some cvr -> has_contest cvr c = false) ->
    (i + List.length mvrs <= List.length cvrs)%nat ->
    comparison_d c asrt true (Some cvrs) mvrs i = Ok [].
Proof.
  intros c asrt cvrs mvrs. induction mvrs as [ | mvr rest IH ];
    intros i Hnone Hlen; simpl in Hlen; [ reflexivity | ].
  cbn [comparison_d negb]. unfold item.
  destruct (nth_error cvrs i) as [cvr | ] eqn:Hi.
  - cbn [bind]. rewrite (Hnone i cvr Hi). apply IH; [ exact Hnone | lia ].
  - apply nth_error_None in Hi. lia.
Qed.

Lemma comparison_d_without_style :
  forall c (asrt : Assertion.t CVR) cvr_sample mvr rest i,
    returns (comparison_d c asrt false cvr_sample (mvr :: rest) i) = false.
Proof.
  intros c asrt cvr_sample mvr rest i. simpl. unfold item.
  destruct cvr_sample as [l | ]; [ | reflexivity ].
  destruct (nth_error l i); reflexivity.
Qed.

(** C10. For a contest whose audit type is POLLING, whatever its
    [use_style] and whatever the cards contain, the sequence handed to the
    test of each assertion is [assort(mvr)] for every MVR of the sample, and
    after a call that returns the assertion holds the p-value and the
    history the test gives on that sequence. *)
Theorem polling_test_gets_assort_of_every_mvr :
  forall (contests : dict (Contest.t CVR)) mvr_sample cvr_sample p contests'
         c con l a asrt,
    set_all_p_values contests mvr_sample cvr_sample = (Ok p, contests') ->
    get contests c = Some con ->
    Contest.audit_type con = Audit.POLLING ->
    Contest.assertions con = Some l ->
    get l a = Some asrt ->
    let d := map (fun mvr => Fin (Assertion.assort asrt mvr)) mvr_sample in
    discrepancies c con asrt mvr_sample cvr_sample = Ok d
    /\ exists con' l' asrt',
         get contests' c = Some con'
         /\ Contest.assertions con' = Some l'
         /\ get l' a = Some asrt'
         /\ Assertion.p_value asrt' = fst (NonnegMean.test (Assertion.test asrt) d)
         /\ Assertion.p_history asrt'
            = snd (NonnegMean.test (Assertion.test asrt) d).
Proof.
  intros contests mvr_sample cvr_sample p contests' c con l a asrt
         Hcall Hcon Haudit Hl Ha d.
  pose proof (@discrepancies_polling c con asrt mvr_sample cvr_sample Haudit) as Hd.
  split; [ exact Hd | ].
  apply set_all_p_values_steps in Hcall. simpl in Hcall.
  destruct (@get_forward _ _ _
              (@contest_step_key _ _ mvr_sample cvr_sample true)
              _ _ _ _ Hcall Hcon) as (c0 & con' & Hcon' & (_ & _ & Hstep & _) & ->).
  simpl in Hstep. rewrite Hl in Hstep. unfold assertions_step in Hstep.
  destruct (Contest.assertions con') as [l' | ] eqn:Hl'; [ | contradiction ].
  destruct (@get_forward _ _ _
              (@entry_step_key _ _ mvr_sample cvr_sample c con true)
              _ _ _ _ Hstep Ha) as (a0 & asrt' & Ha' & (_ & Hup) & ->).
  exists con', l', asrt'. repeat split; try assumption; simpl in Hup;
    destruct Hup as [(d' & Hd' & ->) | [Hf _]]; try discriminate;
    rewrite Hd in Hd'; inversion Hd'; subst d'; apply update_assertion_p.
Qed.

End Polling.

(* ================================================================== *)
(** * Assorters, margins, sample sizes, factories *)

Section AssorterTheorems.
Context {CVR : Type}.

Lemma indicator_score_bounds :
  forall w l : Q,
    (w == 0 \/ w == 1) -> (l == 0 \/ l == 1) ->
    0 <= (w - l + 1) / 2 /\ (w - l + 1) / 2 <= 1.
Proof.
  intros w l Hw Hl. split.
  - apply Qle_shift_div_l; [ reflexivity | ].
    destruct Hw as [Hw | Hw], Hl as [Hl | Hl]; rewrite Hw, Hl; discriminate.
  - apply Qle_shift_div_r; [ reflexivity | ].
    destruct Hw as [Hw | Hw], Hl as [Hl | Hl]; rewrite Hw, Hl; discriminate.
Qed.

(** C3 (amended). An Assorter constructed with [assort=None] and callable
    [winner] and [loser] scores every ballot
    [(winner(ballot) - loser(ballot) + 1)/2]; where [winner] and [loser]
    return 0 or 1 the score lies in [[0, 1]], hence in [[0, upper_bound]]
    when [upper_bound >= 1]; and the construction fails when [winner] or
    [loser] is not callable. *)
Theorem assorter_from_winner_and_loser :
  forall (contest_id : option string) (winner loser : Assorter.scorer CVR)
         (upper_bound : Q),
    match winner, loser with
    | Assorter.Callable w, Assorter.Callable l =>
        exists A,
          Assorter.init contest_id Assorter.PyNone winner loser upper_bound
          = Ok A
          /\ Assorter.upper_bound A = upper_bound
          /\ forall ballot,
               Assorter.assort A ballot = (w ballot - l ballot + 1) / 2
               /\ ((w ballot == 0 \/ w ballot == 1) ->
                   (l ballot == 0 \/ l ballot == 1) ->
                   0 <= Assorter.assort A ballot
                   /\ Assorter.assort A ballot <= 1
                   /\ (1 <= upper_bound ->
                       Assorter.assort A ballot <= Assorter.upper_bound A))
    | _, _ =>
        Assorter.init contest_id Assorter.PyNone winner loser upper_bound
        = Raise AssertionError
    end.
Proof.
  intros contest_id winner loser upper_bound.
  destruct winner as [ | w | ]; try reflexivity;
    destruct loser as [ | l | ]; try reflexivity.
  eexists. split; [ reflexivity | ]. split; [ reflexivity | ].
  intros ballot. simpl. split; [ reflexivity | ].
  intros Hw Hl. destruct (indicator_score_bounds Hw Hl) as [H0 H1].
  repeat split; try assumption.
  intros Hub. eapply Qle_trans; eassumption.
Qed.

End AssorterTheorems.

Section MarginTheorems.
Context {CVR : Type} `{BallotRecord CVR}.

Lemma find_margin_at_or_above_half :
  forall (self : Assertion.t CVR) cvr_list use_style amean,
    Assertion.assorter_mean self cvr_list use_style = Ok amean ->
    ltb amean (Fin (1 # 2)) = false ->
    Assertion.find_margin self cvr_list use_style
    = (Ok tt,
       Assertion.set_margin self (Some (sub (mul (Fin 2) amean) (Fin 1))),
       Assertion.assorter_mean_warnings self cvr_list use_style).
Proof.
  intros self cvr_list use_style amean Hmean Hlt.
  unfold Assertion.find_margin. rewrite Hmean, Hlt. cbv zeta.
  rewrite app_nil_r. reflexivity.
Qed.

(** A mean that is below 1/2 is the mean of at least one card: [np.mean]
    has issued no warning. *)
Lemma mean_below_half_without_warning :
  forall (self : Assertion.t CVR) cvr_list use_style amean,
    Assertion.assorter_mean self cvr_list use_style = Ok amean ->
    ltb amean (Fin (1 # 2)) = true ->
    Assertion.assorter_mean_warnings self cvr_list use_style = [].
Proof.
  intros self cvr_list use_style amean Hmean Hlt. revert Hmean.
  unfold Assertion.assorter_mean, Assertion.assorter_mean_warnings.
  destruct cvr_list as [l | ]; [ | reflexivity ]. cbv zeta.
  destruct (map (Assertion.assort self) (filter _ l)) as [ | x xs ].
  - intros Hmean. inversion Hmean; subst amean. discriminate Hlt.
  - reflexivity.
Qed.

(** C7. When the assorter mean over the CVRs is below 1/2, [find_margin]
    raises [NameError], issues no warning and leaves the margin as it
    was. *)
Theorem find_margin_below_half_raises :
  forall (self : Assertion.t CVR) cvr_list use_style amean,
    Assertion.assorter_mean self cvr_list use_style = Ok amean ->
    ltb amean (Fin (1 # 2)) = true ->
    Assertion.find_margin self cvr_list use_style = (Raise NameError, self, []).
Proof.
  intros self cvr_list use_style amean Hmean Hlt.
  pose proof (mean_below_half_without_warning _ _ _ Hmean Hlt) as Hnone.
  unfold Assertion.find_margin. rewrite Hmean, Hlt, Hnone. reflexivity.
Qed.

Lemma find_margin_without_cvr_list :
  forall (self : Assertion.t CVR) use_style,
    Assertion.find_margin self None use_style = (Raise TypeError, self, []).
Proof. intros self use_style. reflexivity. Qed.

Lemma margins_loop_outcome :
  forall use_style (assertions : dict (Assertion.t CVR)) margins min_margin,
    margins_loop use_style assertions margins min_margin
    = (match assertions with
       | [] => Ok min_margin
       | _ :: _ => Raise TypeError
       end, assertions, margins).
Proof.
  intros use_style assertions margins min_margin.
  destruct assertions as [ | [a asrt] rest ]; reflexivity.
Qed.

Lemma margins_contests_outcome :
  forall use_style (contests : dict (Contest.t CVR)) min_margin,
    fst (margins_contests use_style contests min_margin)
    = (if forallb no_assertion contests then Ok min_margin
       else Raise TypeError)
    /\ map (fun kv => Contest.assertions (snd kv))
         (snd (margins_contests use_style contests min_margin))
       = map (fun kv => Contest.assertions (snd kv)) contests.
Proof.
  intros use_style contests min_margin.
  induction contests as [ | [c con] rest IH ]; simpl; [ split; reflexivity | ].
  unfold no_assertion at 1. simpl.
  destruct (Contest.assertions con) as [l | ] eqn:Hl; simpl.
  - rewrite margins_loop_outcome.
    destruct l as [ | kv l ]; simpl.
    + destruct (margins_contests use_style rest min_margin) as [r rest'].
      simpl in *. destruct IH as [IH1 IH2]. split; [ exact IH1 | ].
      f_equal. exact IH2.
    + split; [ reflexivity | ]. try rewrite Hl. reflexivity.
  - split; [ reflexivity | ]. try rewrite Hl. reflexivity.
Qed.

(** X27. [set_all_margins] returns (infinity) only when no contest has an
    assertion; otherwise it raises [TypeError]; and in both cases the
    assertions, so their margins, are what they were before the call. *)
Theorem set_all_margins_computes_no_margin :
  forall (contests : dict (Contest.t CVR)) cvr_list use_style,
    fst (set_all_margins contests cvr_list use_style)
    = (if forallb no_assertion contests then Ok PInf else Raise TypeError)
    /\ map (fun kv => Contest.assertions (snd kv))
         (snd (set_all_margins contests cvr_list use_style))
       = map (fun kv => Contest.assertions (snd kv)) contests.
Proof.
  intros contests cvr_list use_style. apply margins_contests_outcome.
Qed.

Lemma margins_contests_again :
  forall use_style (contests : dict (Contest.t CVR)) min_margin,
    margins_contests use_style
      (snd (margins_contests use_style contests min_margin)) min_margin
    = margins_contests use_style contests min_margin.
Proof.
  intros use_style contests min_margin.
  induction contests as [ | [c con] rest IH ]; simpl; [ reflexivity | ].
  destruct (Contest.assertions con) as [l | ] eqn:Hl; simpl.
  - rewrite margins_loop_outcome.
    destruct l as [ | kv l ]; simpl.
    + destruct (margins_contests use_style rest min_margin) as [r rest'] eqn:Hr.
      simpl in *. rewrite IH. reflexivity.
    + destruct kv as [a asrt]. reflexivity.
  - try rewrite Hl. reflexivity.
Qed.

(** C8. [set_all_margins] is idempotent: a second call, on the contests as
    the first call left them and with the same CVRs and the same
    [use_style], leaves every stored margin as the first call left it (the
    margin of every assertion and the dict [margins] of every contest,
    indeed the whole dict of contests), and has the outcome of the first
    call: the same value returned, or the same exception raised. *)
Theorem set_all_margins_twice :
  forall (contests : dict (Contest.t CVR)) cvr_list use_style,
    let first := set_all_margins contests cvr_list use_style in
    let second := set_all_margins (snd first) cvr_list use_style in
    stored_margins (snd second) = stored_margins (snd first)
    /\ fst second = fst first
    /\ snd second = snd first.
Proof.
  intros contests cvr_list use_style first second.
  assert (Hagain : second = first).
  { unfold second, first, set_all_margins. apply margins_contests_again. }
  rewrite Hagain. repeat split.
Qed.

End MarginTheorems.

Section SampleSizeTheorems.
Context {CVR : Type} `{BallotRecord CVR}.

Lemma bind_never_returns :
  forall (A B : Type) (r : result A) (k : A -> result B),
    (forall a, returns (k a) = false) -> returns (bind r k) = false.
Proof. intros A B [a | e] k Hk; [ apply Hk | reflexivity ]. Qed.

(** C6. The estimate of [sample_size] is neither stored nor returned: on
    every assertion and every argument the call raises (the lemmas after
    this one tell which exception). *)
Theorem sample_size_never_returns :
  forall (self : Assertion.t CVR) data prefix rate reps quantile seed,
    returns (Assertion.sample_size self data prefix rate reps quantile seed)
    = false.
Proof.
  intros self data prefix rate reps quantile seed.
  unfold Assertion.sample_size.
  apply bind_never_returns. intros m.
  apply bind_never_returns. intros _.
  apply bind_never_returns. intros estimate.
  reflexivity.
Qed.

Lemma sample_size_positive_margin_no_data :
  forall (self : Assertion.t CVR) m prefix rate reps quantile seed,
    Assertion.margin self = Some m ->
    ltb (Fin 0) m = true ->
    Assertion.sample_size self None prefix rate reps quantile seed
    = Raise (if String.eqb (ContestRef.audit_type (Assertion.contest self))
                  Audit.POLLING
             then AttributeError
             else match Assertion.rescale self 0 with
                  | Raise e => e
                  | Ok _ => match Assertion.rescale self 1 with
                            | Raise e => e
                            | Ok _ => AttributeError
                            end
                  end).
Proof.
  intros self m prefix rate reps quantile seed Hm Hpos.
  assert (Ht : truthy m = true).
  { destruct m as [q | | | ]; try reflexivity. simpl in *.
    unfold Qlt_bool in Hpos. apply negb_true_iff in Hpos.
    destruct (Qeq_bool q 0) eqn:E; [ | reflexivity ].
    apply Qeq_bool_iff in E.
    assert (Hle : Qle_bool q 0 = true)
      by (apply Qle_bool_iff; rewrite E; apply Qle_refl).
    congruence. }
  unfold Assertion.sample_size, Assertion.margin_value,
    Assertion.make_overstatement.
  rewrite Hm, Ht. cbn beta iota delta [bind]. rewrite Hpos.
  cbn beta iota delta [bind assert negb].
  destruct (String.eqb _ Audit.POLLING); [ reflexivity | ].
  destruct (Assertion.rescale self 0) as [big | e]; [ | reflexivity ].
  destruct (Assertion.rescale self 1) as [small | e]; [ | reflexivity ].
  cbn beta iota delta [bind].
  destruct (String.eqb _ Audit.BALLOT_COMPARISON); [ reflexivity | ].
  destruct rate; reflexivity.
Qed.

Lemma sample_size_nonpositive_margin :
  forall (self : Assertion.t CVR) m data prefix rate reps quantile seed,
    Assertion.margin self = Some m ->
    ltb (Fin 0) m = false ->
    Assertion.sample_size self data prefix rate reps quantile seed
    = Raise AssertionError.
Proof.
  intros self m data prefix rate reps quantile seed Hm Hneg.
  unfold Assertion.sample_size, Assertion.margin_value.
  rewrite Hm. cbn beta iota delta [bind]. rewrite Hneg. reflexivity.
Qed.

End SampleSizeTheorems.

Section FactoryTheorems.
Context {CVR : Type} `{BallotRecord CVR}.
Variable new_NonnegMean : NonnegMean.constructor.

Lemma plurality_winners_no_loser :
  forall (contest : Contest.t CVR) winners assertions,
    plurality_winners new_NonnegMean contest winners (Some []) assertions
    = Ok assertions.
Proof.
  intros contest winners. induction winners as [ | w ws IH ]; intros assertions;
    simpl; [ reflexivity | apply IH ].
Qed.

Lemma make_plurality_assertions_outcome :
  forall (contest : Contest.t CVR) winners losers,
    make_plurality_assertions new_NonnegMean contest (Some winners) (Some losers)
    = match winners, losers with
      | _ :: _, _ :: _ => Raise TypeError
      | _, _ => Ok []
      end.
Proof.
  intros contest winners losers. unfold make_plurality_assertions. simpl.
  destruct winners as [ | w ws ]; [ reflexivity | ].
  destruct losers as [ | l ls ]; [ apply plurality_winners_no_loser | reflexivity ].
Qed.

Lemma json_assertion_of_key_raises :
  forall c candidates assrtn test estim,
    returns (json_assertion (CVR:=CVR) new_NonnegMean (Key c) candidates assrtn
               test estim) = false.
Proof.
  intros c candidates assrtn test estim. unfold json_assertion.
  destruct (String.eqb _ WINNER_ONLY); [ reflexivity | ].
  destruct (String.eqb _ IRV_ELIMINATION); [ | reflexivity ].
  destruct (Json.already_eliminated assrtn); [ | reflexivity ].
  destruct candidates; reflexivity.
Qed.

Lemma contest_assertions_empty :
  forall c (con : Contest.t CVR) a,
    contest_assertions new_NonnegMean c con = Ok a -> a = [].
Proof.
  intros c con a. unfold contest_assertions.
  destruct (not_winners _ _) as [losrs | e]; [ simpl | discriminate ].
  destruct (String.eqb _ Audit.PLURALITY); [ discriminate | ].
  destruct (String.eqb _ Audit.SUPERMAJORITY).
  { destruct (first _); discriminate. }
  destruct (String.eqb _ Audit.IRV); [ | discriminate ].
  destruct (Contest.assertion_json con) as [json | ]; [ simpl | discriminate ].
  unfold make_assertions_from_json.
  destruct json as [ | assrtn rest ]; cbn [py_iter bind json_assertions_loop];
    [ intros Heq; inversion Heq; reflexivity | ].
  pose proof (json_assertion_of_key_raises c (Contest.candidates con) assrtn
                (Contest.test con) (Contest.estim con)) as Hraise.
  destruct (json_assertion _ _ _ _ _ _);
    [ discriminate Hraise | cbn [bind]; discriminate ].
Qed.

(** C9. After [make_all_assertions], returning or raising, every contest is
    as it was or has got an empty dict of assertions: no assertion is
    built. *)
Theorem make_all_assertions_builds_no_assertion :
  forall contests : dict (Contest.t CVR),
    Forall2 (fun kv kv' =>
               fst kv = fst kv'
               /\ (snd kv' = snd kv
                   \/ snd kv' = Contest.set_assertions (snd kv) (Some [])))
      contests (snd (make_all_assertions new_NonnegMean contests)).
Proof.
  intros contests. induction contests as [ | [c con] rest IH ]; simpl;
    [ constructor | ].
  destruct (contest_assertions new_NonnegMean c con) as [a | e] eqn:Ha.
  - apply contest_assertions_empty in Ha. subst a.
    destruct (make_all_assertions new_NonnegMean rest) as [r rest'].
    constructor; [ split; [ reflexivity | right; reflexivity ] | exact IH ].
  - constructor; [ split; [ reflexivity | left; reflexivity ] | ].
    clear. induction rest as [ | kv rest IH ]; constructor;
      [ split; [ reflexivity | left; reflexivity ] | exact IH ].
Qed.

Lemma make_all_assertions_plurality :
  forall c (con : Contest.t CVR) rest,
    Contest.choice_function con = Audit.PLURALITY ->
    returns (not_winners (Contest.candidates con) (Contest.reported_winners con))
    = true ->
    make_all_assertions new_NonnegMean ((c, con) :: rest)
    = (Raise TypeError, (c, con) :: rest).
Proof.
  intros c con rest Hscf Hlosers. simpl. unfold contest_assertions.
  destruct (not_winners _ _); [ | discriminate ].
  rewrite Hscf. reflexivity.
Qed.

Lemma make_all_assertions_unsupported :
  forall c (con : Contest.t CVR) rest,
    String.eqb (Contest.choice_function con) Audit.PLURALITY = false ->
    String.eqb (Contest.choice_function con) Audit.SUPERMAJORITY = false ->
    String.eqb (Contest.choice_function con) Audit.IRV = false ->
    returns (not_winners (Contest.candidates con) (Contest.reported_winners con))
    = true ->
    make_all_assertions new_NonnegMean ((c, con) :: rest)
    = (Raise NotImplementedError, (c, con) :: rest).
Proof.
  intros c con rest Hp Hs Hi Hlosers. simpl. unfold contest_assertions.
  destruct (not_winners _ _); [ | discriminate ].
  simpl. rewrite Hp, Hs, Hi. reflexivity.
Qed.

End FactoryTheorems.

(* ================================================================== *)
(** * Closed instances *)

Section Instances.
Import Example.
Local Open Scope string_scope.

(** Scenario D on the contest "mayor": the phantom CVR against a ballot for
    Bob overstates by 1/2. *)
Lemma overstatement_of_phantom_cvr_for_bob :
  Assertion.overstatement a_comparison for_bob phantom_card true
  = Ok ((1 # 2) - Assertion.assort a_comparison for_bob)
  /\ Assertion.assort a_comparison for_bob == 0.
Proof.
  split; [ | reflexivity ].
  apply overstatement_of_phantom_cvr; reflexivity.
Qed.

Lemma overstatement_assorter_value_witness :
  exists v,
    Assertion.overstatement_assorter a_comparison for_bob for_alice true
    = Ok (Fin v)
    /\ 0 <= v /\ v <= 2 / (2 - (2 # 10) / 1).
Proof.
  assert (Ho : Assertion.overstatement a_comparison for_bob for_alice true
               = Ok (4 # 4)) by reflexivity.
  assert (Hm : Assertion.margin a_comparison = Some (Fin (2 # 10)))
    by reflexivity.
  destruct (overstatement_assorter_value a_comparison for_bob for_alice true
              Ho Hm) as [Hv Hb].
  destruct Hb as [_ Hb]; [ reflexivity | discriminate | ].
  eexists. split; [ apply Hv; discriminate | ].
  apply Hb; discriminate.
Defined.

(** The interval claimed for the overstatement assorter fails at both ends.
    Below: upper bound 1, margin 2/10 and the overstatement 2 = 2u give
    -10/18.  Above: upper bound 1/2, margin 1/4, a CVR for Bob (assort 0)
    and an MVR for Alice (assort 1/2), so the overstatement is -1/2, give
    32/24, above 2u/(2 - margin/u) = 2/3. *)
Lemma overstatement_assorter_outside_claimed_interval :
  (exists v,
     Assertion.rescale a_comparison 2 = Ok (Fin v)
     /\ 0 < 2 # 10 /\ 2 # 10 <= Assertion.upper_bound a_comparison
     /\ - Assertion.upper_bound a_comparison <= 2
     /\ 2 <= 2 * Assertion.upper_bound a_comparison
     /\ v < 0)
  /\ (exists o v,
        Assertion.overstatement a_half for_alice for_bob true = Ok o
        /\ Assertion.overstatement_assorter a_half for_alice for_bob true
           = Ok (Fin v)
        /\ 0 < 1 # 4 /\ 1 # 4 <= Assertion.upper_bound a_half
        /\ - Assertion.upper_bound a_half <= o
        /\ o <= 2 * Assertion.upper_bound a_half
        /\ 2 * Assertion.upper_bound a_half
             / (2 - (1 # 4) / Assertion.upper_bound a_half) < v).
Proof.
  split.
  - exists (-10 # 18). repeat split; try reflexivity; discriminate.
  - exists (-2 # 4), (32 # 24). repeat split; try reflexivity; discriminate.
Qed.

Lemma assorter_from_winner_and_loser_witness :
  exists A,
    Assorter.init (Some "mayor") Assorter.PyNone
      (Assorter.Callable votes_alice) (Assorter.Callable votes_bob) 1 = Ok A
    /\ 0 <= Assorter.assort A for_alice
    /\ Assorter.assort A for_alice <= Assorter.upper_bound A.
Proof.
  destruct (assorter_from_winner_and_loser (Some "mayor")
              (Assorter.Callable votes_alice) (Assorter.Callable votes_bob) 1)
    as (A & HA & Hub & Hscore).
  exists A. split; [ exact HA | ].
  destruct (Hscore for_alice) as [_ Hbounds].
  destruct Hbounds as (H0 & _ & H1).
  - right. reflexivity.
  - left. reflexivity.
  - split; [ exact H0 | apply H1; discriminate ].
Defined.

(** Indicators of a vote for the winner and of a vote for the loser, and the
    upper bound 1/2: the ballot for Alice scores 1. *)
Lemma indicator_assorter_above_upper_bound :
  exists A,
    Assorter.init (Some "mayor") Assorter.PyNone
      (Assorter.Callable (fun _ : ballot => 1))
      (Assorter.Callable (fun _ : ballot => 0)) (1 # 2) = Ok A
    /\ Assorter.upper_bound A < Assorter.assort A for_alice.
Proof. eexists. split; reflexivity. Qed.

Lemma max_p_below_risk_limit_implies_proved_witness :
  exists p contests' con',
    set_all_p_values (polling_contests false) eight_for_alice None
    = (Ok p, contests')
    /\ get contests' "mayor" = Some con'
    /\ exists m l',
         Contest.max_p con' = Some m
         /\ Contest.assertions con' = Some l'
         /\ m <= Contest.risk_limit con'
         /\ Forall (fun kv => Assertion.proved (snd kv) = true) l'.
Proof.
  assert (Hcall : set_all_p_values (polling_contests false) eight_for_alice None
                  = (Ok (256 # 6561), after_first_sample)) by reflexivity.
  destruct (get after_first_sample "mayor") as [con' | ] eqn:Hcon';
    [ | discriminate Hcon' ].
  destruct (max_p_below_risk_limit_implies_proved _ _ _ "mayor" Hcall Hcon')
    as (m & l' & con & l & Hm & Hl' & _ & _ & Hproved & _).
  exists (256 # 6561), after_first_sample, con'.
  split; [ exact Hcall | ]. split; [ exact Hcon' | ].
  exists m, l'. split; [ exact Hm | ]. split; [ exact Hl' | ].
  assert (Hle : m <= Contest.risk_limit con').
  { vm_compute in Hcon'. inversion Hcon'; subst con'.
    vm_compute in Hm. inversion Hm; subst m. vm_compute. discriminate. }
  split; [ exact Hle | exact (Hproved Hle) ].
Defined.

(** A first sample of eight ballots for Alice proves "Alice v Bob"
    (p-value 256/6561 <= 5/100).  A second call on two ballots for Bob
    computes the p-value 1: the assertion stays proved, and [max_p] is 1,
    above the risk limit. *)
Lemma all_proved_but_max_p_above_risk_limit :
  exists p contests' con' m l',
    set_all_p_values after_first_sample [for_bob; for_bob] None
    = (Ok p, contests')
    /\ get contests' "mayor" = Some con'
    /\ Contest.max_p con' = Some m
    /\ Contest.assertions con' = Some l'
    /\ Forall (fun kv => Assertion.proved (snd kv) = true) l'
    /\ ~ m <= Contest.risk_limit con'.
Proof.
  do 5 eexists. split; [ vm_compute; reflexivity | ].
  split; [ reflexivity | ]. split; [ reflexivity | ].
  split; [ reflexivity | ]. split.
  - repeat constructor.
  - intros Hle. vm_compute in Hle. apply Hle. reflexivity.
Qed.

Lemma proved_is_monotone_witness :
  exists r contests' con' l' asrt',
    set_all_p_values after_first_sample [for_bob; for_bob] None
    = (r, contests')
    /\ get contests' "mayor" = Some con'
    /\ Contest.assertions con' = Some l'
    /\ get l' "Alice v Bob" = Some asrt'
    /\ Assertion.proved asrt' = true
    /\ Assertion.proved asrt'
       = Qle_bool (Assertion.p_value asrt') (5 # 100) || true.
Proof.
  destruct (set_all_p_values after_first_sample [for_bob; for_bob] None)
    as [r contests'] eqn:Hcall.
  destruct (get after_first_sample "mayor") as [con | ] eqn:Hcon;
    [ | discriminate Hcon ].
  destruct (Contest.assertions con) as [l | ] eqn:Hl;
    [ | vm_compute in Hcon; inversion Hcon; subst con; discriminate Hl ].
  destruct (get l "Alice v Bob") as [asrt | ] eqn:Ha;
    [ | vm_compute in Hcon; inversion Hcon; subst con;
        vm_compute in Hl; inversion Hl; subst l; discriminate Ha ].
  destruct (@proved_is_monotone _ _ _ _ _ _ _ _ _ _ _ _ Hcall Hcon Hl Ha)
    as (con' & l' & asrt' & Hcon' & Hl' & Ha' & Hmono & Hexact).
  assert (Hproved : Assertion.proved asrt = true).
  { vm_compute in Hcon; inversion Hcon; subst con.
    vm_compute in Hl; inversion Hl; subst l.
    vm_compute in Ha; inversion Ha; subst asrt. reflexivity. }
  assert (Hrisk : Contest.risk_limit con = 5 # 100).
  { vm_compute in Hcon; inversion Hcon; subst con. reflexivity. }
  assert (Hr : returns r = true).
  { vm_compute in Hcall. inversion Hcall. reflexivity. }
  exists r, contests', con', l', asrt'.
  repeat (split; [ first [ reflexivity | assumption ] | ]).
  split; [ exact (Hmono Hproved) | ].
  rewrite <- Hrisk, <- Hproved. exact (Hexact Hr).
Defined.

(** With [use_style = True], a polling contest and a sample whose second
    card does not contain the contest: both cards are scored. *)
Lemma polling_test_gets_assort_of_every_mvr_witness :
  exists p contests' con' l' asrt',
    set_all_p_values (polling_contests true) [for_alice; other_card] None
    = (Ok p, contests')
    /\ has_contest other_card "mayor" = false
    /\ discrepancies "mayor" (mayor Audit.POLLING true
                                (Some [("Alice v Bob", a_polling)]))
         a_polling [for_alice; other_card] None
       = Ok [Fin (Assertion.assort a_polling for_alice);
             Fin (Assertion.assort a_polling other_card)]
    /\ get contests' "mayor" = Some con'
    /\ Contest.assertions con' = Some l'
    /\ get l' "Alice v Bob" = Some asrt'
    /\ Assertion.p_value asrt'
       = fst (NonnegMean.test product_test
                [Fin (Assertion.assort a_polling for_alice);
                 Fin (Assertion.assort a_polling other_card)]).
Proof.
  destruct (set_all_p_values (polling_contests true) [for_alice; other_card]
              None) as [r contests'] eqn:Hcall.
  destruct r as [p | e]; [ | vm_compute in Hcall; discriminate Hcall ].
  destruct (@polling_test_gets_assort_of_every_mvr _ _
              (polling_contests true) [for_alice; other_card] None p contests'
              "mayor" (mayor Audit.POLLING true
                         (Some [("Alice v Bob", a_polling)]))
              [("Alice v Bob", a_polling)] "Alice v Bob" a_polling
              Hcall eq_refl eq_refl eq_refl eq_refl)
    as (Hd & con' & l' & asrt' & Hcon' & Hl' & Ha' & Hp & _).
  exists p, contests', con', l', asrt'.
  split; [ reflexivity | ]. split; [ reflexivity | ].
  split; [ exact Hd | ].
  repeat (split; [ assumption | ]). exact Hp.
Defined.

(** Two ballots for Bob and one for Alice: the mean of "Alice v Bob" is
    1/3. *)
Lemma find_margin_below_half_raises_witness :
  exists amean,
    Assertion.assorter_mean a_polling (Some [for_bob; for_bob; for_alice]) false
    = Ok (Fin amean)
    /\ amean == 1 # 3
    /\ Assertion.find_margin a_polling (Some [for_bob; for_bob; for_alice])
         false
       = (Raise NameError, a_polling, []).
Proof.
  eexists. split; [ reflexivity | ]. split; [ reflexivity | ].
  eapply find_margin_below_half_raises; reflexivity.
Defined.

(** [sample_size] on an assertion with margin 2/10 and [data=None]: in a
    polling contest the read of [self.u] raises, in a comparison contest the
    read of [self.N]. *)
Lemma sample_size_at_positive_margin :
  Assertion.sample_size a_polling None true None None (1 # 2) 1234567890
  = Raise AttributeError
  /\ Assertion.sample_size a_comparison None true (Some (Fin (1 # 100))) None
       (1 # 2) 1234567890
     = Raise AttributeError.
Proof. split; reflexivity. Qed.

(** [set_all_margins] on one contest with one assertion and two CVRs: the
    call raises, and the margin of the assertion is what it was. *)
Lemma set_all_margins_on_one_assertion :
  set_all_margins (polling_contests false) [for_alice; for_bob] false
  = (Raise TypeError,
     [("mayor",
       Contest.set_margins
         (mayor Audit.POLLING false (Some [("Alice v Bob", a_polling)]))
         (Some []))]).
Proof. reflexivity. Qed.

(** [make_all_assertions] on one plurality contest with the winner Alice and
    the loser Bob: the call raises and the contest has no assertions. *)
Lemma make_all_assertions_on_plurality :
  make_all_assertions new_test new_contests = (Raise TypeError, new_contests)
  /\ make_plurality_assertions new_test (mayor Audit.POLLING true None)
       (Some ["Alice"]) (Some ["Bob"]) = Raise TypeError.
Proof. split; reflexivity. Qed.

End Instances.

(* ================================================================== *)
(** * Means, sums and margins over a list of CVRs *)

Section Means.
Context {CVR : Type} `{BallotRecord CVR}.

Lemma assorter_mean_counted :
  forall (self : Assertion.t CVR) l use_style,
    Assertion.assorter_mean self (Some l) use_style
    = Ok (np_mean (map (Assertion.assort self) (counted self use_style l))).
Proof. intros self l [ | ]; reflexivity. Qed.

Lemma assorter_sum_counted :
  forall (self : Assertion.t CVR) l use_style,
    Assertion.assorter_sum self (Some l) use_style
    = Ok (sum (map (Assertion.assort self) (counted self use_style l))).
Proof. intros self l [ | ]; reflexivity. Qed.

Lemma size_cons :
  forall (A : Type) (x : A) l, size (x :: l) == size l + 1.
Proof.
  intros A x l. unfold size. simpl List.length.
  rewrite Nat2Z.inj_succ, <- Z.add_1_r, inject_Z_plus. reflexivity.
Qed.

Lemma size_nonneg : forall (A : Type) (l : list A), 0 <= size l.
Proof.
  intros A l. unfold size. change 0 with (inject_Z 0).
  rewrite <- Zle_Qle. apply Nat2Z.is_nonneg.
Qed.

Lemma size_pos : forall (A : Type) (l : list A), l <> [] -> 0 < size l.
Proof.
  intros A [ | x l ] Hne; [ congruence | ].
  rewrite size_cons. pose proof (size_nonneg l). lra.
Qed.

Lemma sum_bounds :
  forall (lo hi : Q) (xs : list Q),
    Forall (fun x => lo <= x /\ x <= hi) xs ->
    lo * size xs <= sum xs /\ sum xs <= hi * size xs.
Proof.
  intros lo hi xs HF. induction HF as [ | x xs [Hlo Hhi] _ [IHlo IHhi] ].
  - unfold size. simpl. change (inject_Z 0) with 0. lra.
  - rewrite size_cons. simpl. nra.
Qed.

Lemma np_mean_bounds :
  forall (lo hi : Q) (xs : list Q),
    xs <> [] ->
    Forall (fun x => lo <= x /\ x <= hi) xs ->
    exists m, np_mean xs = Fin m /\ lo <= m /\ m <= hi.
Proof.
  intros lo hi xs Hne HF.
  pose proof (size_pos Hne) as Hpos.
  destruct (sum_bounds HF) as [Hlo Hhi].
  destruct xs as [ | x xs ]; [ congruence | ].
  exists (sum (x :: xs) / size (x :: xs)). split; [ reflexivity | ].
  split.
  - apply Qle_shift_div_l; assumption.
  - apply Qle_shift_div_r; assumption.
Qed.

(** X1. Where at least one card is counted and every counted card scores
    within [[0, 1]], the mean is a number within [[0, 1]] and the margin a
    number within [[-1, 1]].  (Rounding keeps these bounds: the rounded sum
    of [k] scores of [[0, 1]] is within [[0, k]].) *)
Theorem assorter_mean_of_unit_scores :
  forall (self : Assertion.t CVR) (l : list CVR) (use_style : bool),
    counted self use_style l <> [] ->
    (forall c, In c (counted self use_style l) ->
               0 <= Assertion.assort self c /\ Assertion.assort self c <= 1) ->
    exists m x,
      Assertion.assorter_mean self (Some l) use_style = Ok (Fin m)
      /\ 0 <= m /\ m <= 1
      /\ Assertion.assorter_margin self (Some l) use_style = Ok (Fin x)
      /\ - (1) <= x /\ x <= 1.
Proof.
  intros self l use_style Hne Hscores.
  destruct (@np_mean_bounds 0 1
              (map (Assertion.assort self) (counted self use_style l)))
    as (m & Hm & Hlo & Hhi).
  - destruct (counted self use_style l); [ congruence | discriminate ].
  - apply Forall_forall. intros x Hx. apply in_map_iff in Hx.
    destruct Hx as (c & <- & Hc). apply Hscores, Hc.
  - exists m, (2 * m + - (1)). unfold Assertion.assorter_margin.
    rewrite assorter_mean_counted, Hm.
    split; [ reflexivity | ]. split; [ exact Hlo | ]. split; [ exact Hhi | ].
    split; [ reflexivity | ]. split; lra.
Qed.

(** X2. A population whose counted cards all score 1/2 has margin 0. *)
Theorem margin_of_tied_population :
  forall (self : Assertion.t CVR) (l : list CVR) (use_style : bool),
    counted self use_style l <> [] ->
    (forall c, In c (counted self use_style l) ->
               Assertion.assort self c == 1 # 2) ->
    exists m,
      Assertion.assorter_margin self (Some l) use_style = Ok (Fin m)
      /\ m == 0.
Proof.
  intros self l use_style Hne Hhalf.
  destruct (@np_mean_bounds (1 # 2) (1 # 2)
              (map (Assertion.assort self) (counted self use_style l)))
    as (m & Hm & Hlo & Hhi).
  - destruct (counted self use_style l); [ congruence | discriminate ].
  - apply Forall_forall. intros x Hx. apply in_map_iff in Hx.
    destruct Hx as (c & <- & Hc). rewrite (Hhalf c Hc). split; apply Qle_refl.
  - exists (2 * m - 1). unfold Assertion.assorter_margin.
    rewrite assorter_mean_counted, Hm. split; [ reflexivity | lra ].
Qed.

(** X3. With [use_style=True] the mean and the sum are those of the cards
    that contain the contest, taken without [use_style]; cards without the
    contest change neither. *)
Theorem use_style_restricts_to_cards_with_contest :
  forall (self : Assertion.t CVR) (l : list CVR),
    let with_contest :=
      filter (fun c => has_contest c (ContestRef.id (Assertion.contest self)))
        l in
    Assertion.assorter_mean self (Some l) true
    = Assertion.assorter_mean self (Some with_contest) false
    /\ Assertion.assorter_sum self (Some l) true
       = Assertion.assorter_sum self (Some with_contest) false.
Proof.
  intros self l with_contest.
  assert (Hall : forall A (xs : list A), filter (fun _ => true) xs = xs).
  { intros A xs. induction xs as [ | x xs IH ]; simpl; congruence. }
  unfold Assertion.assorter_mean, Assertion.assorter_sum.
  rewrite Hall. split; reflexivity.
Qed.

(** X4. With scores within [[0, 1]] the sum is between 0 and the number of
    counted cards; the mean is the sum divided by that number, and [nan]
    when no card is counted, where the sum is 0. *)
Theorem assorter_sum_within_count :
  forall (self : Assertion.t CVR) (l : list CVR) (use_style : bool),
    (forall c, In c (counted self use_style l) ->
               0 <= Assertion.assort self c /\ Assertion.assort self c <= 1) ->
    exists s,
      Assertion.assorter_sum self (Some l) use_style = Ok s
      /\ 0 <= s /\ s <= size (counted self use_style l)
      /\ (counted self use_style l = [] -> s == 0)
      /\ Assertion.assorter_mean self (Some l) use_style
         = Ok (match counted self use_style l with
               | [] => NaN
               | cards => Fin (s / size cards)
               end).
Proof.
  intros self l use_style Hscores.
  destruct (@sum_bounds 0 1
              (map (Assertion.assort self) (counted self use_style l)))
    as [Hlo Hhi].
  { apply Forall_forall. intros x Hx. apply in_map_iff in Hx.
    destruct Hx as (c & <- & Hc). apply Hscores, Hc. }
  assert (Hsize : size (map (Assertion.assort self) (counted self use_style l))
                  == size (counted self use_style l)).
  { unfold size. rewrite length_map. reflexivity. }
  rewrite Hsize in Hlo, Hhi.
  eexists. rewrite assorter_sum_counted, assorter_mean_counted.
  split; [ reflexivity | ]. split; [ lra | ]. split; [ lra | ]. split.
  - intros Hnone. rewrite Hnone. reflexivity.
  - destruct (counted self use_style l) as [ | c cards ] eqn:E;
      [ reflexivity | ].
    unfold size. cbn [map np_mean List.length]. rewrite length_map.
    reflexivity.
Qed.

End Means.

(* ================================================================== *)
(** * More on overstatements *)

Section MoreOverstatement.
Context {CVR : Type} `{BallotRecord CVR}.

Lemma overstatement_bounds :
  forall (self : Assertion.t CVR) (mvr cvr : CVR) (use_style : bool) (o : Q),
    let u := Assertion.upper_bound self in
    0 <= Assertion.assort self cvr -> Assertion.assort self cvr <= u ->
    0 <= Assertion.assort self mvr -> Assertion.assort self mvr <= u ->
    (use_style = true -> 1 # 2 <= u) ->
    Assertion.overstatement self mvr cvr use_style = Ok o ->
    - u <= o /\ o <= u.
Proof.
  intros self mvr cvr use_style o u Hc0 Hcu Hm0 Hmu Hhalf Ho.
  unfold Assertion.overstatement in Ho.
  destruct use_style; simpl in Ho.
  - specialize (Hhalf eq_refl).
    destruct (has_contest cvr _); [ | discriminate ].
    destruct (phantom cvr), (phantom mvr); simpl in Ho;
      try destruct (has_contest mvr _); simpl in Ho;
      inversion Ho; subst o; split; lra.
  - destruct (phantom mvr); simpl in Ho; inversion Ho; subst o; split; lra.
Qed.

(** X5. When the assorter scores both records within [[0, u]], and
    [u >= 1/2] where [use_style] is set, an overstatement that is returned
    lies in [[-u, u]]. *)
Theorem overstatement_within_upper_bound :
  forall (self : Assertion.t CVR) (mvr cvr : CVR) (use_style : bool) (o : Q),
    let u := Assertion.upper_bound self in
    0 <= Assertion.assort self cvr -> Assertion.assort self cvr <= u ->
    0 <= Assertion.assort self mvr -> Assertion.assort self mvr <= u ->
    (use_style = true -> 1 # 2 <= u) ->
    Assertion.overstatement self mvr cvr use_style = Ok o ->
    - u <= o /\ o <= u.
Proof.
  intros self mvr cvr use_style o u Hc0 Hcu Hm0 Hmu Hhalf Ho.
  exact (@overstatement_bounds self mvr cvr use_style o Hc0 Hcu Hm0 Hmu Hhalf
           Ho).
Qed.

(** X6. Under the same conditions and a stored margin [m] with
    [0 < m <= u], the overstatement assorter is returned whenever the
    overstatement is, and lies between 0 and [2/(2 - m/u)], the bound that
    [set_all_p_values] computes for the test. *)
Theorem overstatement_assorter_within_test_bound :
  forall (self : Assertion.t CVR) (mvr cvr : CVR) (use_style : bool) (o m : Q),
    let u := Assertion.upper_bound self in
    0 <= Assertion.assort self cvr -> Assertion.assort self cvr <= u ->
    0 <= Assertion.assort self mvr -> Assertion.assort self mvr <= u ->
    (use_style = true -> 1 # 2 <= u) ->
    Assertion.margin self = Some (Fin m) -> 0 < m -> m <= u ->
    Assertion.overstatement self mvr cvr use_style = Ok o ->
    exists v,
      Assertion.overstatement_assorter self mvr cvr use_style = Ok (Fin v)
      /\ 0 <= v /\ v <= 2 / (2 - m / u).
Proof.
  intros self mvr cvr use_style o m u Hc0 Hcu Hm0 Hmu Hhalf Hmargin Hm Hle Ho.
  destruct (@overstatement_bounds self mvr cvr use_style o
              Hc0 Hcu Hm0 Hmu Hhalf Ho) as [Hlo Hhi].
  assert (Hu : 0 < u) by (eapply Qlt_le_trans; eauto).
  destruct (ratio_bounds Hm Hle) as [Hr0 Hr1]. fold u in Hr0, Hr1.
  exists ((1 - o / u) / (2 - m / u)). split.
  - unfold Assertion.overstatement_assorter. rewrite Ho. simpl.
    apply rescale_value; [ exact Hmargin | | ]; fold u; intros Hz.
    + rewrite Hz in Hu. exact (Qlt_irrefl 0 Hu).
    + assert (Hpos : 0 < 2 - m / u) by lra.
      rewrite Hz in Hpos. exact (Qlt_irrefl 0 Hpos).
  - apply rescale_bounds; assumption.
Qed.

(** X7. For two records that are not phantoms and contain the contest, the
    overstatement is [assort(cvr) - assort(mvr)] with and without
    [use_style]; it is 0 when the two scores agree. *)
Theorem overstatement_of_ordinary_records :
  forall (self : Assertion.t CVR) (mvr cvr : CVR) (use_style : bool),
    phantom mvr = false -> phantom cvr = false ->
    has_contest mvr (ContestRef.id (Assertion.contest self)) = true ->
    has_contest cvr (ContestRef.id (Assertion.contest self)) = true ->
    Assertion.overstatement self mvr cvr use_style
    = Ok (Assertion.assort self cvr - Assertion.assort self mvr)
    /\ (Assertion.assort self mvr == Assertion.assort self cvr ->
        Assertion.assort self cvr - Assertion.assort self mvr == 0).
Proof.
  intros self mvr cvr use_style Hpm Hpc Hcm Hcc. split.
  - unfold Assertion.overstatement.
    destruct use_style; simpl; rewrite ?Hcc, ?Hpc, ?Hpm, ?Hcm; reflexivity.
  - intros Heq. rewrite Heq. ring.
Qed.

(** X8. A phantom MVR is the worst case: replacing an MVR whose score is not
    negative by a phantom never lowers the overstatement; and with
    [use_style] an MVR that lacks the contest counts as a phantom. *)
Theorem phantom_mvr_is_worst_case :
  forall (self : Assertion.t CVR) (mvr ghost cvr : CVR) (use_style : bool)
         (o : Q),
    phantom ghost = true ->
    0 <= Assertion.assort self mvr ->
    Assertion.overstatement self mvr cvr use_style = Ok o ->
    exists o',
      Assertion.overstatement self ghost cvr use_style = Ok o'
      /\ o <= o'
      /\ (use_style = true ->
          has_contest mvr (ContestRef.id (Assertion.contest self)) = false ->
          o = o').
Proof.
  intros self mvr ghost cvr use_style o Hghost Hm0 Ho.
  unfold Assertion.overstatement in *. rewrite Hghost.
  destruct use_style; simpl in *.
  - destruct (has_contest cvr _); [ | discriminate ].
    eexists. split; [ reflexivity | ].
    destruct (phantom mvr); simpl in Ho.
    + inversion Ho; subst o. split; [ apply Qle_refl | reflexivity ].
    + destruct (has_contest mvr _); simpl in Ho; inversion Ho; subst o.
      * split; [ lra | discriminate ].
      * split; [ apply Qle_refl | reflexivity ].
  - eexists. split; [ reflexivity | ].
    split; [ | discriminate ].
    destruct (phantom mvr); simpl in Ho; inversion Ho; subst o; lra.
Qed.

End MoreOverstatement.

(* ================================================================== *)
(** * More on margins and sample sizes *)

Section MoreMargins.
Context {CVR : Type} `{BallotRecord CVR}.


(** X10. [make_overstatement] raises [NameError] when the margin is unset
    or zero.  With a margin that is set and not zero it is the overstatement
    assorter: on records whose overstatement is [o],
    [overstatement_assorter] returns what [make_overstatement(o)]
    returns. *)
Theorem make_overstatement_is_overstatement_assorter :
  forall (self : Assertion.t CVR),
    (Assertion.margin self = None ->
     forall overs, Assertion.make_overstatement self overs = Raise NameError)
    /\ (forall z, Assertion.margin self = Some (Fin z) -> z == 0 ->
        forall overs, Assertion.make_overstatement self overs = Raise NameError)
    /\ (forall m, Assertion.margin self = Some m -> truthy m = true ->
        forall mvr cvr use_style o,
          Assertion.overstatement self mvr cvr use_style = Ok o ->
          Assertion.overstatement_assorter self mvr cvr use_style
          = Assertion.make_overstatement self o).
Proof.
  intros self. unfold Assertion.make_overstatement. repeat split.
  - intros Hnone overs. rewrite Hnone. reflexivity.
  - intros z Hz Hzero overs. rewrite Hz. simpl.
    apply Qeq_bool_iff in Hzero. rewrite Hzero. reflexivity.
  - intros m Hm Htruthy mvr cvr use_style o Ho.
    unfold Assertion.overstatement_assorter.
    rewrite Ho, Hm, Htruthy. reflexivity.
Qed.

(** X11. With a stored margin [0 < m <= u], [make_overstatement] returns a
    number for every multiple, a larger overstatement gives a value that is
    not larger, and the value for no overstatement is between 1/2 and 1: the
    "small" value that [sample_size] builds is not above its "big" value. *)
Theorem make_overstatement_decreases :
  forall (self : Assertion.t CVR) (m overs1 overs2 : Q),
    Assertion.margin self = Some (Fin m) ->
    0 < m -> m <= Assertion.upper_bound self ->
    overs1 <= overs2 ->
    exists v0 v1 v2,
      Assertion.make_overstatement self 0 = Ok (Fin v0)
      /\ Assertion.make_overstatement self overs1 = Ok (Fin v1)
      /\ Assertion.make_overstatement self overs2 = Ok (Fin v2)
      /\ v2 <= v1 /\ 1 # 2 <= v0 /\ v0 <= 1.
Proof.
  intros self m overs1 overs2 Hmargin Hm Hmu Hle.
  set (u := Assertion.upper_bound self) in *.
  assert (Hu : 0 < u) by (eapply Qlt_le_trans; eauto).
  destruct (ratio_bounds Hm Hmu) as [Hr0 Hr1].
  assert (Hden : 0 < 2 - m / u) by lra.
  assert (Hu0 : ~ u == 0).
  { intros Hz. rewrite Hz in Hu. exact (Qlt_irrefl 0 Hu). }
  assert (Hden0 : ~ 2 - m / u == 0).
  { intros Hz. rewrite Hz in Hden. exact (Qlt_irrefl 0 Hden). }
  assert (Htruthy : truthy (Fin m) = true).
  { simpl. destruct (Qeq_bool m 0) eqn:E; [ | reflexivity ].
    apply Qeq_bool_iff in E. rewrite E in Hm. destruct (Qlt_irrefl 0 Hm). }
  assert (Hvalue : forall overs,
             Assertion.make_overstatement self overs
             = Ok (Fin ((1 - overs / u) / (2 - m / u)))).
  { intros overs. unfold Assertion.make_overstatement.
    rewrite Hmargin, Htruthy. simpl. apply rescale_value; assumption. }
  exists ((1 - 0 / u) / (2 - m / u)), ((1 - overs1 / u) / (2 - m / u)),
    ((1 - overs2 / u) / (2 - m / u)).
  repeat (split; [ apply Hvalue | ]). split.
  - change ((1 - overs2 / u) * / (2 - m / u) <= (1 - overs1 / u) * / (2 - m / u)).
    apply Qmult_le_compat_r; [ | apply Qlt_le_weak, Qinv_lt_0_compat, Hden ].
    assert (Hdiv : overs1 / u <= overs2 / u).
    { change (overs1 * / u <= overs2 * / u).
      apply Qmult_le_compat_r; [ exact Hle | ].
      apply Qlt_le_weak, Qinv_lt_0_compat, Hu. }
    lra.
  - assert (Hzero : 0 / u == 0) by (unfold Qdiv; ring). split.
    + apply Qle_shift_div_l; [ exact Hden | ]. rewrite Hzero. lra.
    + apply Qle_shift_div_r; [ exact Hden | ]. rewrite Hzero. lra.
Qed.

(** X12. [sample_size] looks at the margin before anything else: an unset
    margin raises [TypeError], and a margin that is zero, negative or [nan]
    raises [AssertionError], whatever the other arguments. *)
Theorem sample_size_rejects_margin :
  forall (self : Assertion.t CVR) data prefix rate reps quantile seed,
    (Assertion.margin self = None ->
     Assertion.sample_size self data prefix rate reps quantile seed
     = Raise TypeError)
    /\ (forall m, Assertion.margin self = Some m -> ltb (Fin 0) m = false ->
        Assertion.sample_size self data prefix rate reps quantile seed
        = Raise AssertionError).
Proof.
  intros self data prefix rate reps quantile seed.
  unfold Assertion.sample_size, Assertion.margin_value. split.
  - intros Hnone. rewrite Hnone. reflexivity.
  - intros m Hm Hneg. rewrite Hm. cbn beta iota delta [bind].
    rewrite Hneg. reflexivity.
Qed.

(** X13. [overstatement_assorter_margin] and [overstatement_assorter_mean]
    return on no input: without a margin and without a non-empty list of
    CVRs they raise [ValueError]; with a margin they raise [NameError], for
    the rate is read under the name [r]. *)
Theorem overstatement_assorter_margin_and_mean_raise :
  forall (self : Assertion.t CVR) assorter_margin rate cvr_list,
    returns (Assertion.overstatement_assorter_margin self assorter_margin rate
               cvr_list) = false
    /\ returns (Assertion.overstatement_assorter_mean self assorter_margin rate
                  cvr_list) = false
    /\ (assorter_margin = None -> (cvr_list = None \/ cvr_list = Some []) ->
        Assertion.overstatement_assorter_margin self assorter_margin rate
          cvr_list = Raise ValueError
        /\ Assertion.overstatement_assorter_mean self assorter_margin rate
             cvr_list = Raise ValueError)
    /\ (forall m, assorter_margin = Some m ->
        Assertion.overstatement_assorter_margin self assorter_margin rate
          cvr_list = Raise NameError
        /\ Assertion.overstatement_assorter_mean self assorter_margin rate
             cvr_list = Raise NameError).
Proof.
  intros self assorter_margin rate cvr_list.
  unfold Assertion.overstatement_assorter_margin,
    Assertion.overstatement_assorter_mean.
  split; [ | split; [ | split ] ].
  - destruct (Assertion.margin_or_cvrs self assorter_margin cvr_list);
      reflexivity.
  - destruct (Assertion.margin_or_cvrs self assorter_margin cvr_list);
      reflexivity.
  - intros -> [-> | ->]; split; reflexivity.
  - intros m ->. split; reflexivity.
Qed.

Lemma fold_min_spec :
  forall (l : list Q) (x : Q),
    let m := fold_left (fun acc y => if Qlt_bool y acc then y else acc) l x in
    In m (x :: l) /\ m <= x /\ Forall (fun p => m <= p) l.
Proof.
  intros l. induction l as [ | y l IH ]; intros x; simpl.
  - split; [ left; reflexivity | split; [ apply Qle_refl | constructor ] ].
  - destruct (Qlt_bool y x) eqn:E; unfold Qlt_bool in E.
    + apply negb_true_iff in E.
      assert (Hyx : y <= x).
      { destruct (Qlt_le_dec y x) as [Hlt | Hle]; [ apply Qlt_le_weak, Hlt | ].
        apply Qle_bool_iff in Hle. congruence. }
      destruct (IH y) as (Hin & Hle & Hall).
      split; [ right; exact Hin | ].
      split; [ eapply Qle_trans; eauto | constructor; assumption ].
    + apply negb_false_iff, Qle_bool_iff in E.
      destruct (IH x) as (Hin & Hle & Hall).
      split; [ destruct Hin as [Hin | Hin]; [ left; exact Hin | right; right; exact Hin ] | ].
      split; [ exact Hle | constructor; [ eapply Qle_trans; eauto | exact Hall ] ].
Qed.

(** X14. [min_p] raises [ValueError] on an assertion whose history is empty
    (as it is until a sample has been evaluated); otherwise it returns an
    element of the history that no element is below. *)
Theorem min_p_is_least_of_history :
  forall self : Assertion.t CVR,
    match Assertion.p_history self with
    | [] => Assertion.min_p self = Raise ValueError
    | _ :: _ =>
        exists m,
          Assertion.min_p self = Ok m
          /\ In m (Assertion.p_history self)
          /\ Forall (fun p => m <= p) (Assertion.p_history self)
    end.
Proof.
  intros self. unfold Assertion.min_p.
  destruct (Assertion.p_history self) as [ | x l ]; [ reflexivity | ].
  destruct (fold_min_spec l x) as (Hin & Hle & Hall).
  eexists. split; [ reflexivity | ].
  split; [ exact Hin | constructor; assumption ].
Qed.

End MoreMargins.

(* ================================================================== *)
(** * More on the factories *)

Section MoreFactories.
Context {CVR : Type} `{BallotRecord CVR}.
Variable new_NonnegMean : NonnegMean.constructor.

(** X15. [make_plurality_assertions] returns only the empty dict, and only
    when there is no winner or no loser; with a winner and a loser it raises
    [TypeError] at the first pair, as it does when the winners, or the
    losers of a winner, are [None]. *)
Theorem make_plurality_assertions_returns_nothing :
  forall (contest : Contest.t CVR) winners losers,
    make_plurality_assertions new_NonnegMean contest winners losers
    = match winners, losers with
      | Some [], _ => Ok []
      | Some (_ :: _), Some [] => Ok []
      | _, _ => Raise TypeError
      end.
Proof.
  intros contest winners losers. unfold make_plurality_assertions.
  destruct winners as [ [ | w ws ] | ]; try reflexivity.
  destruct losers as [ [ | l ls ] | ]; try reflexivity.
  apply plurality_winners_no_loser.
Qed.

(** X16. [make_supermajority_assertion] returns on no input: it raises
    [AttributeError] without a list of losers, [TypeError] without
    [share_to_win], [ZeroDivisionError] when [share_to_win] is 0, and
    [TypeError] otherwise. *)
Theorem make_supermajority_assertion_raises :
  forall (contest : Contest.t CVR) winner losers test estim,
    make_supermajority_assertion new_NonnegMean contest winner losers test estim
    = Raise match losers, Contest.share_to_win contest with
            | None, _ => AttributeError
            | Some _, None => TypeError
            | Some _, Some share =>
                if Qeq_bool (2 * share) 0 then ZeroDivisionError else TypeError
            end.
Proof.
  intros contest winner losers test estim.
  unfold make_supermajority_assertion, qdiv.
  destruct losers as [ l | ]; [ simpl | reflexivity ].
  destruct (Contest.share_to_win contest) as [ share | ]; [ simpl | reflexivity ].
  destruct (Qeq_bool (2 * share) 0); reflexivity.
Qed.

Lemma json_assertion_fresh :
  forall (contest : Contest.t CVR) candidates assrtn test estim k a,
    json_assertion new_NonnegMean (Obj contest) candidates assrtn test estim
    = Ok (k, a) ->
    fresh_for contest a.
Proof.
  intros contest candidates assrtn test estim k a. unfold json_assertion.
  destruct (String.eqb _ WINNER_ONLY).
  - simpl. intros Heq. inversion Heq; subst. repeat split.
  - destruct (String.eqb _ IRV_ELIMINATION); [ | discriminate ].
    destruct (Json.already_eliminated assrtn); [ | discriminate ].
    destruct candidates; [ | discriminate ].
    simpl. intros Heq. inversion Heq; subst. repeat split.
Qed.

Lemma update_Forall :
  forall (V : Type) (P : string * V -> Prop) (d : dict V) k v,
    Forall P d -> (forall k', P (k', v)) -> Forall P (update d k v).
Proof.
  intros V P d k v HF Hv. induction HF as [ | [k' v'] d Hp HF IH ]; simpl.
  - constructor; [ apply Hv | constructor ].
  - destruct (String.eqb k k'); constructor; auto.
Qed.

Lemma update_length :
  forall (V : Type) (d : dict V) k v,
    (List.length (update d k v) <= S (List.length d))%nat.
Proof.
  intros V d k v. induction d as [ | [k' v'] d IH ]; simpl; [ lia | ].
  destruct (String.eqb k k'); simpl; lia.
Qed.

Lemma json_assertions_loop_fresh :
  forall (contest : Contest.t CVR) candidates l test estim acc d,
    json_assertions_loop new_NonnegMean (Obj contest) candidates l test estim acc
    = Ok d ->
    Forall (fun kv => fresh_for contest (snd kv)) acc ->
    Forall (fun kv => fresh_for contest (snd kv)) d
    /\ (List.length d <= List.length acc + List.length l)%nat.
Proof.
  intros contest candidates l. induction l as [ | assrtn l IH ];
    intros test estim acc d Hloop Hacc; simpl in Hloop.
  - inversion Hloop; subst. split; [ exact Hacc | lia ].
  - destruct (json_assertion new_NonnegMean (Obj contest) candidates assrtn
                test estim) as [[k a] | e] eqn:Hone; [ | discriminate ].
    simpl in Hloop. apply json_assertion_fresh in Hone.
    destruct (IH _ _ _ _ Hloop) as [HF Hlen].
    + apply update_Forall; [ exact Hacc | intros k'; exact Hone ].
    + split; [ exact HF | ].
      pose proof (update_length acc k a). simpl. lia.
Qed.

(** X17. Called with a Contest, [make_assertions_from_json] returns a dict
    with at most one assertion per record, and each assertion has upper
    bound 1, no margin, [proved] false, p-value 1, an empty history, and
    refers to that contest. *)
Theorem make_assertions_from_json_builds_fresh_assertions :
  forall (contest : Contest.t CVR) candidates l test estim d,
    make_assertions_from_json new_NonnegMean (Obj contest) candidates (Some l)
      test estim = Ok d ->
    Forall (fun kv => fresh_for contest (snd kv)) d
    /\ (List.length d <= List.length l)%nat.
Proof.
  intros contest candidates l test estim d Hcall.
  unfold make_assertions_from_json in Hcall. simpl in Hcall.
  apply json_assertions_loop_fresh in Hcall; [ | constructor ].
  exact Hcall.
Qed.

(** X18. A record whose [assertion_type] is neither [WINNER_ONLY] nor
    [IRV_ELIMINATION] makes [make_assertions_from_json] raise [NameError]
    (the message of the intended exception reads [assertn]) when it is the
    first record, whatever the contest; and no list of records at all raises
    [TypeError]. *)
Theorem make_assertions_from_json_unsupported_type :
  forall contest candidates assrtn rest test estim,
    String.eqb (Json.assertion_type assrtn) WINNER_ONLY = false ->
    String.eqb (Json.assertion_type assrtn) IRV_ELIMINATION = false ->
    make_assertions_from_json (CVR:=CVR) new_NonnegMean contest candidates
      (Some (assrtn :: rest)) test estim = Raise NameError
    /\ make_assertions_from_json (CVR:=CVR) new_NonnegMean contest candidates
         None test estim = Raise TypeError.
Proof.
  intros contest candidates assrtn rest test estim Hw Hi.
  split; [ | reflexivity ].
  unfold make_assertions_from_json. cbn [py_iter bind json_assertions_loop].
  unfold json_assertion. rewrite Hw, Hi. reflexivity.
Qed.

End MoreFactories.

(* ================================================================== *)
(** * The methods of Contest *)

Section ContestTheorems.
Context {CVR : Type} `{BallotRecord CVR}.

(** X19. [Contest.sample_size] sets the attribute [sample_size] to 0 and
    then returns 0 when the contest has an empty dict of assertions, raises
    [AttributeError] at the first assertion when it has any, and raises
    [TypeError] when it has none set; the assertions are left as they
    were. *)
Theorem contest_sample_size_outcome :
  forall (self : Contest.t CVR) reps quantile seed,
    fst (contest_sample_size self reps quantile seed)
    = match Contest.assertions self with
      | None => Raise TypeError
      | Some [] => Ok 0%Z
      | Some (_ :: _) => Raise AttributeError
      end
    /\ Contest.sample_size (snd (contest_sample_size self reps quantile seed))
       = Some 0%Z
    /\ Contest.assertions (snd (contest_sample_size self reps quantile seed))
       = Contest.assertions self.
Proof.
  intros self reps quantile seed. unfold contest_sample_size. simpl.
  destruct (Contest.assertions self) as [ [ | kv l ] | ] eqn:Ha; simpl;
    rewrite ?Ha; repeat split.
Qed.

(** X20. [Contest.initial_sample_size] returns on no input: with a contest
    in the dict it raises [AttributeError] at the first one, and on an empty
    dict [NameError]. *)
Theorem initial_sample_size_raises :
  forall (contests : dict (Contest.t CVR)) rate reps quantile seed,
    initial_sample_size contests rate reps quantile seed
    = Raise match contests with
            | [] => NameError
            | _ :: _ => AttributeError
            end.
Proof.
  intros contests rate reps quantile seed.
  destruct contests; reflexivity.
Qed.

(** X21. The contest that [from_dict] returns has, for each name of
    [ATTRIBUTES], the value the dict gives it, and [None] where the dict has
    no such key (the defaults of [__init__] do not survive); its [estim] is
    [None] whatever the dict holds; and it has the same attributes as a
    contest built with the defaults. *)
Theorem from_dict_reads_attributes :
  forall (d : dict (option pyval)),
    (forall att, In att ATTRIBUTES ->
                 get (from_dict d) att = Some (dict_get d att))
    /\ get (from_dict d) "estim" = Some None
    /\ keys (from_dict d) = keys default_attributes.
Proof.
  intros d. unfold from_dict. cbn -[dict_get]. split; [ | split ].
  - intros att Hin. unfold ATTRIBUTES in Hin.
    repeat (destruct Hin as [<- | Hin]; [ reflexivity | ]).
    destruct Hin.
  - reflexivity.
  - reflexivity.
Qed.

Lemma update_fresh :
  forall (V : Type) (d : dict V) k v,
    ~ In k (keys d) -> update d k v = d ++ [(k, v)].
Proof.
  intros V d k v. induction d as [ | [k' v'] d IH ]; simpl; intros Hnot;
    [ reflexivity | ].
  destruct (String.eqb k k') eqn:E.
  - apply String.eqb_eq in E. subst k'. exfalso. apply Hnot. left. reflexivity.
  - rewrite IH; [ reflexivity | ]. intros Hin. apply Hnot. right. exact Hin.
Qed.

Lemma from_dict_of_dicts_from :
  forall (d acc : dict (dict (option pyval))),
    NoDup (keys acc ++ keys d) ->
    fold_left
      (fun contests kv => update contests (fst kv) (from_dict (snd kv))) d acc
    = acc ++ map (fun kv => (fst kv, from_dict (snd kv))) d.
Proof.
  intros d. induction d as [ | [k v] d IH ]; intros acc Hnodup; simpl.
  - rewrite app_nil_r. reflexivity.
  - assert (Hfresh : ~ In k (keys acc)).
    { intros Hin. apply NoDup_remove_2 in Hnodup. apply Hnodup.
      apply in_or_app. left. exact Hin. }
    rewrite (@update_fresh _ acc k (from_dict v) Hfresh), IH.
    + rewrite <- app_assoc. reflexivity.
    + unfold keys in *. rewrite map_app, <- app_assoc. simpl. exact Hnodup.
Qed.

(** X22. [from_dict_of_dicts] keeps the keys of the dict and their order,
    and maps each value through [from_dict]. *)
Theorem from_dict_of_dicts_maps_from_dict :
  forall d : dict (dict (option pyval)),
    NoDup (keys d) ->
    from_dict_of_dicts d = map (fun kv => (fst kv, from_dict (snd kv))) d
    /\ keys (from_dict_of_dicts d) = keys d.
Proof.
  intros d Hnodup. unfold from_dict_of_dicts.
  rewrite from_dict_of_dicts_from by exact Hnodup. simpl.
  split; [ reflexivity | ].
  unfold keys. rewrite map_map. reflexivity.
Qed.

End ContestTheorems.

(* ================================================================== *)
(** * More on p-value propagation *)

Section MorePValues.
Context {CVR : Type} `{BallotRecord CVR}.

Lemma p_values_contest_max_p :
  forall c (con : Contest.t CVR) mvr_sample cvr_sample m con',
    p_values_contest c con mvr_sample cvr_sample = (Ok m, con') ->
    Contest.max_p con' = Some m.
Proof.
  intros c con mvr_sample cvr_sample m con' Hc.
  unfold p_values_contest in Hc. simpl in Hc.
  destruct (Contest.assertions con) as [l | ]; [ | discriminate ].
  destruct (p_values_loop c _ mvr_sample cvr_sample l [] [] 0)
    as [[[r0 l'] pv] pr].
  destruct r0 as [m0 | e]; inversion Hc; subst. reflexivity.
Qed.

Lemma p_values_contests_p_max :
  forall (contests : dict (Contest.t CVR)) mvr_sample cvr_sample p_max p
         contests',
    p_values_contests contests mvr_sample cvr_sample p_max = (Ok p, contests') ->
    forall alpha : Q,
      p <= alpha
      <-> p_max <= alpha
          /\ Forall (fun kv => exists m, Contest.max_p (snd kv) = Some m
                                         /\ m <= alpha) contests'.
Proof.
  intros contests mvr_sample cvr_sample.
  induction contests as [ | [c con] rest IH ]; intros p_max p contests' Hc alpha;
    simpl in Hc.
  - inversion Hc; subst. split; [ intros Hp; split; [ exact Hp | constructor ] | tauto ].
  - destruct (p_values_contest c con mvr_sample cvr_sample) as [[m | e] con']
      eqn:Hcon; [ | discriminate ].
    apply p_values_contest_max_p in Hcon.
    destruct (p_values_contests rest mvr_sample cvr_sample (np_max p_max m))
      as [r rest'] eqn:Hrest.
    inversion Hc; subst.
    rewrite (IH _ _ _ Hrest alpha), np_max_le. split.
    + intros [[Hp Hm] HF]. split; [ exact Hp | ].
      constructor; [ exists m; split; assumption | exact HF ].
    + intros [Hp HF]. inversion HF as [ | kv l (m' & Hm' & Hle) HF' ]; subst.
      simpl in Hm'. rewrite Hcon in Hm'. inversion Hm'; subst m'.
      repeat split; assumption.
Qed.

(** X23. The value [set_all_p_values] returns is the largest of 0 and the
    [max_p] of the contests: it is at most a bound exactly when 0 and every
    [max_p] are. *)
Theorem p_max_is_largest_max_p :
  forall (contests : dict (Contest.t CVR)) mvr_sample cvr_sample p contests',
    set_all_p_values contests mvr_sample cvr_sample = (Ok p, contests') ->
    forall alpha : Q,
      p <= alpha
      <-> 0 <= alpha
          /\ Forall (fun kv => exists m, Contest.max_p (snd kv) = Some m
                                         /\ m <= alpha) contests'.
Proof.
  intros contests mvr_sample cvr_sample p contests' Hcall alpha.
  unfold set_all_p_values in Hcall.
  destruct (assert _) as [ [] | e ]; [ | discriminate ].
  apply (p_values_contests_p_max _ _ _ _ Hcall).
Qed.

Lemma get_update_same :
  forall (V : Type) (d : dict V) k v, get (update d k v) k = Some v.
Proof.
  intros V d k v. induction d as [ | [k' v'] d IH ]; simpl.
  - rewrite String.eqb_refl. reflexivity.
  - destruct (String.eqb k k') eqn:E; simpl; rewrite E; [ reflexivity | exact IH ].
Qed.

Lemma get_update_other :
  forall (V : Type) (d : dict V) k k' v,
    k' <> k -> get (update d k v) k' = get d k'.
Proof.
  intros V d k k' v Hne. induction d as [ | [k0 v0] d IH ]; simpl.
  - destruct (String.eqb k' k) eqn:E; [ | reflexivity ].
    apply String.eqb_eq in E. contradiction.
  - destruct (String.eqb k k0) eqn:E; simpl.
    + apply String.eqb_eq in E. subst k0.
      destruct (String.eqb k' k) eqn:E'; [ | reflexivity ].
      apply String.eqb_eq in E'. contradiction.
    + rewrite IH. reflexivity.
Qed.

Lemma p_values_loop_dicts :
  forall c (con : Contest.t CVR) mvr_sample cvr_sample assertions p_values
         proved contest_max_p m assertions' pv pr,
    p_values_loop c con mvr_sample cvr_sample assertions p_values proved
      contest_max_p = (Ok m, assertions', pv, pr) ->
    keys assertions' = keys assertions
    /\ (forall a, ~ In a (keys assertions) ->
                  get pv a = get p_values a /\ get pr a = get proved a)
    /\ (NoDup (keys assertions) ->
        forall a x, In (a, x) assertions' ->
                    get pv a = Some (Assertion.p_value x)
                    /\ get pr a
                       = Some (if Assertion.proved x then 1%Z else 0%Z)).
Proof.
  intros c con mvr_sample cvr_sample assertions.
  induction assertions as [ | [a asrt] rest IH ];
    intros p_values proved contest_max_p m assertions' pv pr Hloop;
    simpl in Hloop.
  - inversion Hloop; subst. split; [ reflexivity | ].
    split; [ intros b _; split; reflexivity | intros _ b x [] ].
  - destruct (discrepancies c con asrt mvr_sample cvr_sample) as [d | e];
      [ | discriminate ].
    destruct (p_values_loop c con mvr_sample cvr_sample rest _ _ _)
      as [[[r0 rest'] pv0] pr0] eqn:Hrest.
    inversion Hloop; subst.
    destruct (IH _ _ _ _ _ _ _ Hrest) as (Hkeys & Hother & Hin).
    split; [ simpl; f_equal; exact Hkeys | ]. split.
    + intros b Hnot. simpl in Hnot.
      assert (Hb : b <> a) by (intros ->; apply Hnot; left; reflexivity).
      destruct (Hother b) as [Hpv Hpr];
        [ intros Hb'; apply Hnot; right; exact Hb' | ].
      rewrite Hpv, Hpr, !get_update_other by exact Hb. split; reflexivity.
    + intros Hnodup b x Hbx. simpl in Hnodup.
      apply NoDup_cons_iff in Hnodup. destruct Hnodup as [Hfresh Hnodup].
      destruct Hbx as [Heq | Hbx].
      * inversion Heq; subst b x.
        destruct (Hother a Hfresh) as [Hpv Hpr].
        rewrite Hpv, Hpr, !get_update_same. split; reflexivity.
      * apply (Hin Hnodup b x Hbx).
Qed.

Lemma p_values_contest_mirror :
  forall c (con : Contest.t CVR) mvr_sample cvr_sample m con' l,
    p_values_contest c con mvr_sample cvr_sample = (Ok m, con') ->
    Contest.assertions con = Some l -> NoDup (keys l) ->
    dicts_mirror_assertions con'.
Proof.
  intros c con mvr_sample cvr_sample m con' l Hc Hl Hnodup.
  unfold p_values_contest in Hc. simpl in Hc. rewrite Hl in Hc.
  destruct (p_values_loop c _ mvr_sample cvr_sample l [] [] 0)
    as [[[r0 l'] pv] pr] eqn:Hloop.
  destruct r0 as [m0 | e]; inversion Hc; subst.
  apply p_values_loop_dicts in Hloop. destruct Hloop as (_ & _ & Hin).
  exists l', pv, pr.
  split; [ reflexivity | ]. split; [ reflexivity | ].
  split; [ reflexivity | ]. exact (Hin Hnodup).
Qed.

Lemma p_values_contests_mirror :
  forall (contests : dict (Contest.t CVR)) mvr_sample cvr_sample p_max p
         contests',
    p_values_contests contests mvr_sample cvr_sample p_max = (Ok p, contests') ->
    Forall (fun kv => exists l, Contest.assertions (snd kv) = Some l
                                /\ NoDup (keys l)) contests ->
    Forall (fun kv => dicts_mirror_assertions (snd kv)) contests'.
Proof.
  intros contests mvr_sample cvr_sample.
  induction contests as [ | [c con] rest IH ]; intros p_max p contests' Hc HF;
    simpl in Hc.
  - inversion Hc; subst. constructor.
  - destruct (p_values_contest c con mvr_sample cvr_sample) as [[m | e] con']
      eqn:Hcon; [ | discriminate ].
    destruct (p_values_contests rest mvr_sample cvr_sample (np_max p_max m))
      as [r rest'] eqn:Hrest.
    inversion Hc; subst. inversion HF as [ | kv l0 (l & Hl & Hnodup) HF' ]; subst.
    constructor.
    + simpl in *. eapply p_values_contest_mirror; eassumption.
    + eapply IH; eassumption.
Qed.

(** X24. After a call of [set_all_p_values] that returns, on contests whose
    dicts of assertions have distinct keys, the dicts [p_values] and [proved]
    of every contest hold, under the key of each assertion, the p-value of
    that assertion and its [proved] as 0 or 1. *)
Theorem p_values_and_proved_mirror_assertions :
  forall (contests : dict (Contest.t CVR)) mvr_sample cvr_sample p contests',
    set_all_p_values contests mvr_sample cvr_sample = (Ok p, contests') ->
    Forall (fun kv => exists l, Contest.assertions (snd kv) = Some l
                                /\ NoDup (keys l)) contests ->
    Forall (fun kv => dicts_mirror_assertions (snd kv)) contests'.
Proof.
  intros contests mvr_sample cvr_sample p contests' Hcall HF.
  unfold set_all_p_values in Hcall.
  destruct (assert _) as [ [] | e ]; [ | discriminate ].
  eapply p_values_contests_mirror; eassumption.
Qed.

Lemma bind_ok :
  forall (A B : Type) (r : result A) (k : A -> result B) (b : B),
    bind r k = Ok b -> exists a, r = Ok a /\ k a = Ok b.
Proof.
  intros A B [a | e] k b Hb; [ | discriminate ].
  exists a. split; [ reflexivity | exact Hb ].
Qed.

Lemma comparison_d_returns_nothing :
  forall c (asrt : Assertion.t CVR) use_style cvr_sample mvrs i d,
    comparison_d c asrt use_style cvr_sample mvrs i = Ok d ->
    d = [] /\ (mvrs = [] \/ use_style = true).
Proof.
  intros c asrt use_style cvr_sample mvrs.
  induction mvrs as [ | mvr rest IH ]; intros i d Hd; simpl in Hd.
  - inversion Hd. split; [ reflexivity | left; reflexivity ].
  - destruct use_style; simpl in Hd.
    + destruct (item cvr_sample i) as [cvr | e]; simpl in Hd; [ | discriminate ].
      destruct (has_contest cvr c); simpl in Hd; [ discriminate | ].
      destruct (IH _ _ Hd) as [Hnil _]. split; [ exact Hnil | right; reflexivity ].
    + destruct (item cvr_sample i); simpl in Hd; discriminate.
Qed.

(** X25. For a contest whose audit type is BALLOT_COMPARISON the sequence
    handed to the test is never anything but empty: when [discrepancies]
    returns, every sampled card has been filtered out (which takes
    [use_style] or an empty sample); a card that passes the filter makes the
    call raise. *)
Theorem comparison_sequence_is_empty :
  forall c (con : Contest.t CVR) asrt mvr_sample cvr_sample d,
    Contest.audit_type con = Audit.BALLOT_COMPARISON ->
    discrepancies c con asrt mvr_sample cvr_sample = Ok d ->
    d = [] /\ (mvr_sample = [] \/ Contest.use_style con = true).
Proof.
  intros c con asrt mvr_sample cvr_sample d Haudit Hd.
  unfold discrepancies in Hd. rewrite Haudit in Hd.
  change (String.eqb Audit.BALLOT_COMPARISON Audit.BALLOT_COMPARISON)
    with true in Hd. cbv iota in Hd.
  apply bind_ok in Hd. destruct Hd as (d0 & Hcmp & Hd).
  apply comparison_d_returns_nothing in Hcmp. destruct Hcmp as [-> Hwhy].
  apply bind_ok in Hd. destruct Hd as (m & _ & Hd).
  apply bind_ok in Hd. destruct Hd as (b & _ & Hd).
  apply bind_ok in Hd. destruct Hd as (u & _ & Hd).
  inversion Hd. split; [ reflexivity | exact Hwhy ].
Qed.

(** X26. Samples of unequal lengths make [set_all_p_values] raise
    [AssertionError] with the contests untouched.  A contest whose audit type
    is neither BALLOT_COMPARISON nor POLLING, met first with an assertion,
    makes it raise [NotImplementedError] after the dicts [p_values] and
    [proved] of that contest have been emptied. *)
Theorem set_all_p_values_failures :
  forall (contests : dict (Contest.t CVR)) mvr_sample cvr_sample,
    (forall cvrs, cvr_sample = Some cvrs ->
                  List.length mvr_sample <> List.length cvrs ->
                  set_all_p_values contests mvr_sample cvr_sample
                  = (Raise AssertionError, contests))
    /\ (forall c con rest a asrt l,
          contests = (c, con) :: rest ->
          Contest.assertions con = Some ((a, asrt) :: l) ->
          String.eqb (Contest.audit_type con) Audit.BALLOT_COMPARISON = false ->
          String.eqb (Contest.audit_type con) Audit.POLLING = false ->
          match cvr_sample with
          | Some cvrs => List.length mvr_sample = List.length cvrs
          | None => True
          end ->
          set_all_p_values contests mvr_sample cvr_sample
          = (Raise NotImplementedError,
             (c, Contest.set_proved (Contest.set_p_values con (Some []))
                   (Some [])) :: rest)).
Proof.
  intros contests mvr_sample cvr_sample. split.
  - intros cvrs -> Hlen. unfold set_all_p_values.
    apply Nat.eqb_neq in Hlen. rewrite Hlen. reflexivity.
  - intros c con rest a asrt l -> Hl Hcmp Hpoll Hlen.
    unfold set_all_p_values.
    assert (Hassert : match cvr_sample with
                      | Some l0 => Nat.eqb (List.length mvr_sample) (List.length l0)
                      | None => true
                      end = true).
    { destruct cvr_sample; [ apply Nat.eqb_eq, Hlen | reflexivity ]. }
    rewrite Hassert. cbn [assert p_values_contests].
    destruct con. cbn [Contest.assertions Contest.audit_type] in Hl, Hcmp, Hpoll.
    subst assertions. unfold p_values_contest. simpl.
    unfold discrepancies. simpl. rewrite Hcmp, Hpoll. reflexivity.
Qed.

End MorePValues.

(* ================================================================== *)
(** * More closed instances *)

Section MoreInstances.
Import Example.
Local Open Scope string_scope.

(** Two cards for Alice, one for Bob and a card of another contest, with
    [use_style]: three cards are counted. *)
Lemma assorter_mean_of_unit_scores_witness :
  exists m x,
    Assertion.assorter_mean a_polling
      (Some [for_alice; for_bob; other_card; for_alice]) true = Ok (Fin m)
    /\ 0 <= m /\ m <= 1
    /\ Assertion.assorter_margin a_polling
         (Some [for_alice; for_bob; other_card; for_alice]) true = Ok (Fin x)
    /\ - (1) <= x /\ x <= 1.
Proof.
  apply assorter_mean_of_unit_scores.
  - discriminate.
  - intros c Hc. simpl in Hc.
    destruct Hc as [<- | [<- | [<- | []]]]; split; discriminate.
Defined.

Lemma assorter_sum_within_count_witness :
  exists s,
    Assertion.assorter_sum a_polling
      (Some [for_alice; for_bob; other_card; for_alice]) true = Ok s
    /\ 0 <= s /\ s <= 3.
Proof.
  destruct (@assorter_sum_within_count _ _ a_polling
              [for_alice; for_bob; other_card; for_alice] true)
    as (s & Hs & Hlo & Hhi & _).
  - intros c Hc. simpl in Hc.
    destruct Hc as [<- | [<- | [<- | []]]]; split; discriminate.
  - exists s. split; [ exact Hs | ]. split; [ exact Hlo | exact Hhi ].
Defined.

Lemma margin_of_tied_population_witness :
  exists m,
    Assertion.assorter_margin a_tie (Some [for_alice; for_bob]) false
    = Ok (Fin m) /\ m == 0.
Proof.
  apply margin_of_tied_population.
  - discriminate.
  - intros c _. reflexivity.
Defined.

Lemma overstatement_within_upper_bound_witness :
  exists o,
    Assertion.overstatement a_comparison for_bob phantom_card true = Ok o
    /\ - (1) <= o /\ o <= 1.
Proof.
  assert (Ho : Assertion.overstatement a_comparison for_bob phantom_card true
               = Ok ((1 # 2) - (0 # 2))) by reflexivity.
  eexists. split; [ exact Ho | ].
  apply (@overstatement_within_upper_bound _ _ a_comparison for_bob
           phantom_card true _);
    first [ exact Ho | discriminate | intros _; discriminate ].
Defined.

Lemma overstatement_assorter_within_test_bound_witness :
  exists v,
    Assertion.overstatement_assorter a_comparison for_bob phantom_card true
    = Ok (Fin v)
    /\ 0 <= v /\ v <= 2 / (2 - (2 # 10) / 1).
Proof.
  assert (Ho : Assertion.overstatement a_comparison for_bob phantom_card true
               = Ok ((1 # 2) - (0 # 2))) by reflexivity.
  apply (@overstatement_assorter_within_test_bound _ _ a_comparison for_bob
           phantom_card true ((1 # 2) - (0 # 2)) (2 # 10));
    first [ exact Ho | reflexivity | discriminate | intros _; discriminate ].
Defined.

Lemma overstatement_of_ordinary_records_witness :
  Assertion.overstatement a_comparison for_alice for_alice true
  = Ok (Assertion.assort a_comparison for_alice
        - Assertion.assort a_comparison for_alice)
  /\ Assertion.assort a_comparison for_alice
     - Assertion.assort a_comparison for_alice == 0.
Proof.
  destruct (@overstatement_of_ordinary_records _ _ a_comparison for_alice
              for_alice true) as [Ho Hzero]; try reflexivity.
  split; [ exact Ho | apply Hzero; reflexivity ].
Defined.

Lemma phantom_mvr_is_worst_case_witness :
  exists o o',
    Assertion.overstatement a_comparison for_alice for_alice false = Ok o
    /\ Assertion.overstatement a_comparison phantom_card for_alice false = Ok o'
    /\ o <= o'.
Proof.
  assert (Ho : Assertion.overstatement a_comparison for_alice for_alice false
               = Ok ((2 # 2) - (2 # 2))) by reflexivity.
  destruct (@phantom_mvr_is_worst_case _ _ a_comparison for_alice phantom_card
              for_alice false ((2 # 2) - (2 # 2))) as (o' & Ho' & Hle & _);
    [ reflexivity | discriminate | exact Ho | ].
  eexists. exists o'. split; [ exact Ho | ]. split; assumption.
Defined.


Lemma make_overstatement_is_overstatement_assorter_witness :
  Assertion.overstatement_assorter a_comparison for_bob for_alice true
  = Assertion.make_overstatement a_comparison (4 # 4)
  /\ Assertion.make_overstatement
       (Assertion.set_margin a_comparison None) 1 = Raise NameError.
Proof.
  destruct (make_overstatement_is_overstatement_assorter a_comparison)
    as (_ & _ & Hcompose).
  destruct (make_overstatement_is_overstatement_assorter
              (Assertion.set_margin a_comparison None)) as (Hnone & _).
  split.
  - apply (Hcompose (Fin (2 # 10))); reflexivity.
  - apply Hnone. reflexivity.
Defined.

Lemma make_overstatement_decreases_witness :
  exists v0 v1 v2,
    Assertion.make_overstatement a_comparison 0 = Ok (Fin v0)
    /\ Assertion.make_overstatement a_comparison 0 = Ok (Fin v1)
    /\ Assertion.make_overstatement a_comparison 1 = Ok (Fin v2)
    /\ v2 <= v1 /\ 1 # 2 <= v0 /\ v0 <= 1.
Proof.
  apply make_overstatement_decreases with (m := 2 # 10);
    first [ reflexivity | discriminate ].
Defined.

Lemma sample_size_rejects_margin_witness :
  Assertion.sample_size (Assertion.set_margin a_polling None) None true None
    None (1 # 2) 1 = Raise TypeError
  /\ Assertion.sample_size (Assertion.set_margin a_polling (Some (Fin 0)))
       None true None None (1 # 2) 1 = Raise AssertionError
  /\ Assertion.sample_size (Assertion.set_margin a_polling (Some NaN))
       None true None None (1 # 2) 1 = Raise AssertionError.
Proof.
  split; [ | split ].
  - apply sample_size_rejects_margin. reflexivity.
  - eapply sample_size_rejects_margin; reflexivity.
  - eapply sample_size_rejects_margin; reflexivity.
Defined.

Lemma overstatement_assorter_margin_and_mean_raise_witness :
  Assertion.overstatement_assorter_margin a_comparison None (Fin 0) (Some [])
  = Raise ValueError
  /\ Assertion.overstatement_assorter_mean a_comparison (Some (Fin (2 # 10)))
       (Fin 0) None = Raise NameError.
Proof.
  split.
  - apply overstatement_assorter_margin_and_mean_raise;
      [ reflexivity | right; reflexivity ].
  - eapply overstatement_assorter_margin_and_mean_raise. reflexivity.
Defined.

(** Two RAIRE records, for the contest "mayor" given as a Contest: two
    assertions, keyed by the pair and by the pair with the eliminated
    candidates. *)
Lemma make_assertions_from_json_builds_fresh_assertions_witness :
  exists d,
    make_assertions_from_json new_test (Obj (mayor Audit.POLLING true None))
      (Some ["Alice"; "Bob"; "Carol"]) (Some [winner_only; elimination])
      None None = Ok d
    /\ keys d = ["Alice v Bob"; "Alice v Bob elim Carol"]
    /\ Forall (fun kv => fresh_for (mayor Audit.POLLING true None) (snd kv)) d
    /\ (List.length d <= 2)%nat.
Proof.
  destruct (make_assertions_from_json new_test
              (Obj (mayor Audit.POLLING true None))
              (Some ["Alice"; "Bob"; "Carol"]) (Some [winner_only; elimination])
              None None) as [d | e] eqn:Hcall;
    [ | vm_compute in Hcall; discriminate Hcall ].
  exists d. split; [ reflexivity | ].
  split; [ vm_compute in Hcall; inversion Hcall; reflexivity | ].
  exact (make_assertions_from_json_builds_fresh_assertions _ _ _ _ _ _ Hcall).
Defined.

Lemma make_assertions_from_json_unsupported_type_witness :
  make_assertions_from_json new_test (Key (CVR:=ballot) "mayor") None
    (Some [unknown_type; winner_only]) None None = Raise NameError
  /\ make_assertions_from_json new_test (Key (CVR:=ballot) "mayor") None
       None None None = Raise TypeError.
Proof.
  apply make_assertions_from_json_unsupported_type; reflexivity.
Defined.

(** The dict of "mayor" gives [cards] and [estim] and no [risk_limit]: the
    contest has 100 cards, no risk limit, and no [estim]. *)
Lemma from_dict_reads_attributes_witness :
  get (from_dict mayor_data) "cards" = Some (Some (VInt 100))
  /\ get (from_dict mayor_data) "risk_limit" = Some None
  /\ get (from_dict mayor_data) "estim" = Some None.
Proof.
  destruct (from_dict_reads_attributes mayor_data) as (Hatt & Hestim & _).
  split; [ | split; [ | exact Hestim ] ].
  - rewrite (Hatt "cards"); [ reflexivity | ].
    unfold ATTRIBUTES. simpl. tauto.
  - rewrite (Hatt "risk_limit"); [ reflexivity | ].
    unfold ATTRIBUTES. simpl. tauto.
Defined.

Lemma from_dict_of_dicts_maps_from_dict_witness :
  from_dict_of_dicts [("mayor", mayor_data); ("measure", measure_data)]
  = [("mayor", from_dict mayor_data); ("measure", from_dict measure_data)]
  /\ keys (from_dict_of_dicts
             [("mayor", mayor_data); ("measure", measure_data)])
     = ["mayor"; "measure"].
Proof.
  apply (from_dict_of_dicts_maps_from_dict
           [("mayor", mayor_data); ("measure", measure_data)]).
  constructor; [ intros [Heq | []]; discriminate Heq | ].
  constructor; [ intros [] | constructor ].
Defined.

(** After eight ballots for Alice the value returned, 256/6561, is within
    the risk limit 5/100, and so is the [max_p] of the contest. *)
Lemma p_max_is_largest_max_p_witness :
  exists p contests',
    set_all_p_values (polling_contests false) eight_for_alice None
    = (Ok p, contests')
    /\ p <= 5 # 100
    /\ Forall (fun kv => exists m, Contest.max_p (snd kv) = Some m
                                   /\ m <= 5 # 100) contests'.
Proof.
  assert (Hcall : set_all_p_values (polling_contests false) eight_for_alice None
                  = (Ok (256 # 6561), after_first_sample)) by reflexivity.
  exists (256 # 6561), after_first_sample.
  split; [ exact Hcall | ]. split; [ discriminate | ].
  apply (proj1 (p_max_is_largest_max_p _ _ _ Hcall (5 # 100))).
  discriminate.
Defined.

Lemma p_values_and_proved_mirror_assertions_witness :
  exists p contests',
    set_all_p_values (polling_contests false) eight_for_alice None
    = (Ok p, contests')
    /\ Forall (fun kv => dicts_mirror_assertions (snd kv)) contests'.
Proof.
  assert (Hcall : set_all_p_values (polling_contests false) eight_for_alice None
                  = (Ok (256 # 6561), after_first_sample)) by reflexivity.
  exists (256 # 6561), after_first_sample.
  split; [ exact Hcall | ].
  eapply p_values_and_proved_mirror_assertions; [ exact Hcall | ].
  constructor; [ | constructor ].
  eexists. split; [ reflexivity | ].
  constructor; [ intros [] | constructor ].
Defined.

(** A comparison contest that uses style, and a sampled card whose CVR does
    not contain the contest: the card is filtered out and the sequence is
    empty. *)
Lemma comparison_sequence_is_empty_witness :
  discrepancies "mayor" comparison_contest a_comparison [for_alice]
    (Some [other_card]) = Ok []
  /\ Contest.use_style comparison_contest = true.
Proof.
  assert (Hd : discrepancies "mayor" comparison_contest a_comparison
                 [for_alice] (Some [other_card]) = Ok []) by reflexivity.
  split; [ exact Hd | ].
  destruct (@comparison_sequence_is_empty _ _ "mayor" comparison_contest
              a_comparison [for_alice] (Some [other_card]) [] eq_refl Hd)
    as [_ [Hempty | Hstyle]]; [ discriminate Hempty | exact Hstyle ].
Defined.

Lemma set_all_p_values_failures_witness :
  set_all_p_values (polling_contests false) [for_alice; for_bob]
    (Some [for_alice]) = (Raise AssertionError, polling_contests false)
  /\ set_all_p_values [("mayor", batch_contest)] [for_alice] None
     = (Raise NotImplementedError,
        [("mayor", Contest.set_proved
                     (Contest.set_p_values batch_contest (Some [])) (Some []))]).
Proof.
  split.
  - apply (proj1 (set_all_p_values_failures (polling_contests false)
                    [for_alice; for_bob] (Some [for_alice])) [for_alice]);
      [ reflexivity | discriminate ].
  - apply (proj2 (set_all_p_values_failures [("mayor", batch_contest)]
                    [for_alice] None)
             "mayor" batch_contest [] "Alice v Bob" a_polling []);
      first [ reflexivity | exact I ].
Defined.

End MoreInstances.
